(** * model_search: the search candidate generator and the task manager

    A shallow embedding of
    [model_search/generators/search_candidate_generator.py] (module
    [Generator]) and of the behaviour of [model_search.task_manager] that
    [model_search/task_manager_test.py] exercises (module [TaskManager]).

    Python integers are [Z]: [//] and [%] are floor division and its
    remainder, which is what [Z.div] and [Z.modulo] compute for a non-zero
    divisor; a zero divisor raises [ZeroDivisionError] in Python and is
    written out here.  Dictionaries are [gmap string _]. *)

From Stdlib Require Import ZArith QArith_base String List Lia.
From stdpp Require Import base decidable option list strings pretty gmap.

Local Open Scope string_scope.
Local Open Scope list_scope.
Local Open Scope Z_scope.

(** ** Python values shared by both modules *)

(** The exceptions the modelled code raises. *)
Inductive Exception :=
| IndexError
| KeyError (key : string)
| ZeroDivisionError
| AssertionError
| ValueError (message : string).

(** [l[i]]: a negative index counts from the end of the list, an index out
    of range raises [IndexError]. *)
Definition py_index {A : Type} (l : list A) (i : Z) : Exception + A :=
  let n := Z.of_nat (length l) in
  let j := if decide (i < 0) then n + i else i in
  if decide (0 <= j < n) then
    match l !! Z.to_nat j with
    | Some x => inr x
    | None => inl IndexError
    end
  else inl IndexError.

(** [d[k]] on a dictionary: a missing key raises [KeyError k]. *)
Definition py_getitem {V : Type} (d : gmap string V) (k : string) : Exception + V :=
  match d !! k with
  | Some v => inr v
  | None => inl (KeyError k)
  end.

(** A Python float, kept as the rational the configuration writes. *)
Definition Float : Type := Q.

Module Generator.

(** ** Data *)

(** A member of [block_builder.BlockType], by its enum value; the table of
    the members' names is a parameter of the generator (see
    [Collaborators]). *)
Definition BlockType : Type := Z.

Definition Architecture : Type := list BlockType.

(** [phoenix_spec_pb2.PhoenixSpec.ProblemType], by its enum number. *)
Definition ProblemType : Type := Z.

(** [EnsemblingSpec.ensemble_search_type].  A protobuf enum is open: a
    number that is none of the declared members is kept as [OTHER n]. *)
Inductive EnsembleSearchType :=
| NONE
| NONADAPTIVE_ENSEMBLE_SEARCH
| ADAPTIVE_ENSEMBLE_SEARCH
| RESIDUAL_ENSEMBLE_SEARCH
| INTERMIXED_NONADAPTIVE_ENSEMBLE_SEARCH
| OTHER (n : Z).

#[global] Instance EnsembleSearchType_eq_dec : EqDecision EnsembleSearchType.
Proof. solve_decision. Defined.

(** [phoenix_spec.ensemble_spec]: the tag and the two sub-messages the
    generator reads; a sub-message that was not set reads as 0. *)
Record EnsembleSpec := {
  ensemble_search_type : EnsembleSearchType;
  adaptive_search_increase_width_every : Z;
  intermixed_search_try_ensembling_every : Z
}.

(** [trial_utils.TrialMode]. *)
Inductive TrialMode := NO_PRIOR | ENSEMBLE_SEARCH | DISTILLATION.

#[global] Instance TrialMode_eq_dec : EqDecision TrialMode.
Proof. solve_decision. Defined.

Inductive TransferLearningType :=
| NO_TRANSFER_LEARNING
| SNAPSHOT_TRANSFER_LEARNING.

#[global] Instance TransferLearningType_eq_dec : EqDecision TransferLearningType.
Proof. solve_decision. Defined.

(** One entry of [phoenix_spec.user_suggestions]: block type names. *)
Record UserSuggestion := { architecture : list string }.

Record PhoenixSpec := {
  user_suggestions : list UserSuggestion;
  problem_type : ProblemType;
  ensemble_spec : EnsembleSpec;
  transfer_learning_type : TransferLearningType
}.

Record Trial := { trial_id : Z; trial_model_directory : string }.

#[global] Instance Trial_eq_dec : EqDecision Trial.
Proof. solve_decision. Defined.

Record RunConfig := { model_dir : string }.

(** [hparams]: the generator reads [getattr(hparams, "dropout_rate", None)]. *)
Record HParams := { hparams_attributes : gmap string Float }.

(** A tower, as the call that built it: [tower.Tower(...)] or
    [tower.Tower.load(...)], with the arguments the generator passes. *)
Inductive Tower :=
| Tower_init (phoenix_spec : PhoenixSpec) (tower_name : string)
    (tower_architecture : Architecture) (is_training : bool)
    (logits_dimension : Z) (is_frozen : bool) (hparams : HParams)
    (model_directory : string) (dropout_rate : option Float)
    (allow_auxiliary_head : bool)
| Tower_load (phoenix_spec : PhoenixSpec)
    (original_tower_name new_tower_name : string)
    (model_directory new_model_directory : string) (is_training : bool)
    (logits_dimension : Z) (force_freeze : bool)
    (allow_auxiliary_head : bool).

(** What [first_time_chief_generate] returns: the list [[tower_]], or the
    pair [[], []] of the branches that do not search. *)
Inductive Generated :=
| TowerList (towers : list Tower)
| EmptyPair.

Definition towers_of (g : Generated) : list Tower :=
  match g with
  | TowerList ts => ts
  | EmptyPair => []
  end.

(** The calls the generator makes to its collaborators that change or read
    the world, in the order it makes them. *)
Inductive Event :=
| SaveArchitecture (arch : Architecture) (model_dir : string) (my_id : Z)
| InitVariables (source : option Trial) (original_scope new_scope : string)
| SetNumberOfTowers (generator : string) (n : Z)
| GetSuggestion (relevant_trials : list Trial) (my_id : Z) (model_dir : string).

(** ** Collaborators

    Code the generator calls and the sources do not hold; each is a
    parameter. *)
Class Collaborators := {
  (** [block_builder.BlockType[name]]: the enum's table of names. *)
  block_types : gmap string BlockType;
  (** [architecture_utils.fix_architecture_order]. *)
  fix_architecture_order : Architecture -> ProblemType -> Architecture;
  (** [architecture_utils.DirectoryHandler.get_trial_id]. *)
  get_trial_id : string -> PhoenixSpec -> Z;
  (** [architecture_utils.DirectoryHandler.trial_dir]. *)
  trial_dir : Trial -> string;
  (** [architecture_utils.get_number_of_towers(model_dir, generator)]. *)
  get_number_of_towers : string -> string -> Z;
  (** [search_algorithm.get_suggestion]: the architecture and the trial to
      take weights from ([None] or an id). *)
  get_suggestion :
    list Trial -> HParams -> Z -> string -> Architecture * option Z;
  (** [metadata.get_best_k(trials, k=1)]. *)
  get_best_k : list Trial -> option Trial;
  (** The number [str.format] prints for an [ensemble_search_type]. *)
  ensemble_search_type_number : EnsembleSearchType -> Z
}.

(** ** The effects of the generator: a log of events and exceptions *)

Definition M (A : Type) : Type := list Event -> list Event * (Exception + A).

Definition ret {A : Type} (a : A) : M A := fun log => (log, inr a).

Definition bind {A B : Type} (m : M A) (k : A -> M B) : M B :=
  fun log =>
    match m log with
    | (log', inr a) => k a log'
    | (log', inl e) => (log', inl e)
    end.

Definition raise {A : Type} (e : Exception) : M A := fun log => (log, inl e).

Definition emit (ev : Event) : M unit := fun log => (log ++ [ev], inr tt).

Definition lift {A : Type} (r : Exception + A) : M A := fun log => (log, r).

#[global] Instance M_ret : MRet M := @ret.
#[global] Instance M_bind : MBind M := fun A B k m => bind m k.

(** A run from the empty log. *)
Definition run {A : Type} (m : M A) : list Event * (Exception + A) := m [].

(** ** [trial_utils] *)

(** Modelled from the spec: [trial_utils] is not among the sources.  Its
    four predicates test the tag of the ensemble spec (section 3, "tagged
    union over NONE, NON_ADAPTIVE, ADAPTIVE, RESIDUAL, INTERMIXED"). *)
Definition is_nonadaptive_ensemble_search (e : EnsembleSpec) : bool :=
  bool_decide (ensemble_search_type e = NONADAPTIVE_ENSEMBLE_SEARCH).

(** Modelled from the spec: [trial_utils.is_adaptive_ensemble_search], as
    above. *)
Definition is_adaptive_ensemble_search (e : EnsembleSpec) : bool :=
  bool_decide (ensemble_search_type e = ADAPTIVE_ENSEMBLE_SEARCH).

(** Modelled from the spec: [trial_utils.is_residual_ensemble_search], as
    above. *)
Definition is_residual_ensemble_search (e : EnsembleSpec) : bool :=
  bool_decide (ensemble_search_type e = RESIDUAL_ENSEMBLE_SEARCH).

(** Modelled from the spec: [trial_utils.is_intermixed_ensemble_search],
    as above. *)
Definition is_intermixed_ensemble_search (e : EnsembleSpec) : bool :=
  bool_decide (ensemble_search_type e = INTERMIXED_NONADAPTIVE_ENSEMBLE_SEARCH).

(** Modelled from the spec: [trial_utils.get_intermixed_trials] is not among
    the sources.  Section 4.2, step 3: "the same modulo rule plus exclusion
    of user-suggestion trial ids"; the user-suggestion trials are those with
    an id up to the number of suggestions (step 1). *)
Definition get_intermixed_trials (trials : list Trial) (every : Z)
    (num_user_suggestions : Z) : list Trial :=
  filter (fun t => trial_id t `mod` every ≠ 0 ∧ num_user_suggestions < trial_id t) trials.

(** ** The generator *)

Section SearchCandidateGenerator.

Context `{Collaborators}.

(** [self._phoenix_spec]; [self._ensemble_spec] is its [ensemble_spec]. *)
Variable self_phoenix_spec : PhoenixSpec.

Definition generator_name : string := "search_generator".

(** [self._allow_auxiliary_head], set to [True] by [__init__]. *)
Definition self_allow_auxiliary_head : bool := true.

Fixpoint _get_trial_from_id (id : Z) (trials : list Trial) : option Trial :=
  match trials with
  | [] => None
  | trial :: rest =>
      if decide (trial_id trial = id) then Some trial
      else _get_trial_from_id id rest
  end.

(** [prev_trial and prev_trial > 0]: [None] and 0 are false. *)
Definition prev_trial_is_positive (prev_trial : option Z) : bool :=
  match prev_trial with
  | Some p => bool_decide (p ≠ 0) && bool_decide (0 < p)
  | None => false
  end.

Definition _create_new_architecture (arch : Architecture)
    (run_config : RunConfig) (my_id : Z) (is_training : bool)
    (hparams : HParams) (logits_dimension : Z) (dropout_rate : option Float)
    (prev_trial : option Z) (trials : list Trial) : M Generated :=
  emit (SaveArchitecture arch (model_dir run_config) my_id);;
  let tower_ :=
    Tower_init self_phoenix_spec (String.append generator_name "_0") arch
      is_training logits_dimension false hparams (model_dir run_config)
      dropout_rate self_allow_auxiliary_head in
  let apply_snapshot :=
    bool_decide (transfer_learning_type self_phoenix_spec
                 = SNAPSHOT_TRANSFER_LEARNING) in
  (if prev_trial_is_positive prev_trial && apply_snapshot then
     emit (InitVariables
             (_get_trial_from_id (default 0 prev_trial) trials)
             (String.append "Phoenix/" (String.append generator_name "_0"))
             (String.append "Phoenix/" (String.append generator_name "_0")))
   else mret tt);;
  emit (SetNumberOfTowers generator_name 1);;
  mret (TowerList [tower_]).

(** [[block_builder.BlockType[block_type] for block_type in architecture]]:
    the first name that is no member raises [KeyError]. *)
Fixpoint block_types_of_names (names : list string) : Exception + Architecture :=
  match names with
  | [] => inr []
  | name :: rest =>
      match py_getitem block_types name with
      | inl e => inl e
      | inr b =>
          match block_types_of_names rest with
          | inl e => inl e
          | inr bs => inr (b :: bs)
          end
      end
  end.

Definition _get_user_suggestion (trial_id : Z) : Exception + Architecture :=
  let suggestion := trial_id - 1 in
  match py_index (user_suggestions self_phoenix_spec) suggestion with
  | inl e => inl e
  | inr s =>
      match block_types_of_names (architecture s) with
      | inl e => inl e
      | inr arch =>
          inr (fix_architecture_order arch (problem_type self_phoenix_spec))
      end
  end.

(** [_suggest_and_create_architecture], with [create_new_architecture_fn]
    the partial application [first_time_chief_generate] builds. *)
Definition _suggest_and_create_architecture
    (create_new_architecture_fn : Architecture -> option Z -> M Generated)
    (relevant_trials : list Trial) (hparams : HParams) (my_id : Z)
    (run_config : RunConfig) : M Generated :=
  emit (GetSuggestion relevant_trials my_id (model_dir run_config));;
  let '(arch, prev_trial) :=
    get_suggestion relevant_trials hparams my_id (model_dir run_config) in
  create_new_architecture_fn arch prev_trial.

(** [first_time_chief_generate]; [input_layer_fn] is handed on to
    [_suggest_and_create_architecture], which does not use it, and is left
    out. *)
Definition first_time_chief_generate (trial_mode : TrialMode)
    (logits_dimension : Z) (hparams : HParams) (run_config : RunConfig)
    (is_training : bool) (trials : list Trial) : M Generated :=
  let self_ensemble_spec := ensemble_spec self_phoenix_spec in
  let dropout_rate := hparams_attributes hparams !! "dropout_rate" in
  let my_id := get_trial_id (model_dir run_config) self_phoenix_spec in
  let create_new_architecture_fn := fun arch prev_trial =>
    _create_new_architecture arch run_config my_id is_training hparams
      logits_dimension dropout_rate prev_trial trials in
  let suggest_and_create_architecture_fn := fun relevant_trials =>
    _suggest_and_create_architecture create_new_architecture_fn
      relevant_trials hparams my_id run_config in
  (* First, try out user suggestions. *)
  if decide (my_id <= Z.of_nat (length (user_suggestions self_phoenix_spec)))
  then
    arch ← lift (_get_user_suggestion my_id);
    create_new_architecture_fn arch (Some (-1))
  else if decide (trial_mode = ENSEMBLE_SEARCH) then
    (* Non-adaptive ensemble search. *)
    if is_nonadaptive_ensemble_search self_ensemble_spec then
      emit (SetNumberOfTowers generator_name 0);;
      mret EmptyPair
    (* Adaptive and residual ensemble search. *)
    else if is_adaptive_ensemble_search self_ensemble_spec
            || is_residual_ensemble_search self_ensemble_spec then
      let every := adaptive_search_increase_width_every self_ensemble_spec in
      let relevant_trials :=
        if decide (every ≠ 0) then
          filter (fun trial => my_id `div` every * every <= trial_id trial) trials
        else trials in
      suggest_and_create_architecture_fn relevant_trials
    (* Intermixed ensemble search. *)
    else if is_intermixed_ensemble_search self_ensemble_spec then
      let every := intermixed_search_try_ensembling_every self_ensemble_spec in
      if decide (every = 0) then raise ZeroDivisionError
      (* Do not search if this is a non-exploration trial. *)
      else if decide (my_id `mod` every = 0) then
        emit (SetNumberOfTowers generator_name 0);;
        mret EmptyPair
      (* Search if this is an exploration trial. *)
      else
        suggest_and_create_architecture_fn
          (filter (fun trial => trial_id trial `mod` every ≠ 0) trials)
    else
      raise (ValueError
        (String.append "Unknown ensemble search type '"
           (String.append
              (pretty (ensemble_search_type_number
                         (ensemble_search_type self_ensemble_spec)))
              "'")))
  else
    let distilled : M (option Generated) :=
      if bool_decide (trial_mode = DISTILLATION)
         && is_intermixed_ensemble_search self_ensemble_spec then
        let relevant_trials :=
          get_intermixed_trials trials
            (intermixed_search_try_ensembling_every self_ensemble_spec)
            (Z.of_nat (length (user_suggestions self_phoenix_spec))) in
        match get_best_k relevant_trials with
        | Some best_trial =>
            let model_dir_ := trial_dir best_trial in
            if decide (get_number_of_towers model_dir_ generator_name = 1) then
              let tower_name := String.append generator_name "_0" in
              let tower_ :=
                Tower_load self_phoenix_spec tower_name tower_name model_dir_
                  (model_dir run_config) is_training logits_dimension false
                  self_allow_auxiliary_head in
              emit (SetNumberOfTowers generator_name 1);;
              mret (Some (TowerList [tower_]))
            else raise AssertionError
        | None => mret None
        end
      else mret None in
    returned ← distilled;
    match returned with
    | Some towers => mret towers
    | None =>
        (* No ensembling search method, or a distillation trial without
           intermixed ensemble search: a new tower from the search
           algorithm. *)
        suggest_and_create_architecture_fn trials
    end.

End SearchCandidateGenerator.

(** The relevant-trial lists the search algorithm was asked about, in the
    order of the calls. *)
Fixpoint searched_over (log : list Event) : list (list Trial) :=
  match log with
  | [] => []
  | GetSuggestion relevant_trials _ _ :: rest =>
      relevant_trials :: searched_over rest
  | _ :: rest => searched_over rest
  end.

(** The tower [_create_new_architecture] builds for an architecture. *)
Definition new_tower (spec : PhoenixSpec) (arch : Architecture)
    (is_training : bool) (logits_dimension : Z) (hparams : HParams)
    (run_config : RunConfig) : Tower :=
  Tower_init spec "search_generator_0" arch is_training logits_dimension
    false hparams (model_dir run_config)
    (hparams_attributes hparams !! "dropout_rate") true.

(** ** The ensembling rules read without the user-suggestion step

    Each rule below is stated for every trial of its mode, the trials that
    are served a user suggestion included. *)

Section Unguarded.

Context `{Collaborators}.

Variables (spec : PhoenixSpec) (logits_dimension : Z) (hparams : HParams)
  (run_config : RunConfig) (is_training : bool) (trials : list Trial).

Let my_id : Z := get_trial_id (model_dir run_config) spec.
Let every : Z := intermixed_search_try_ensembling_every (ensemble_spec spec).
Let search_type : EnsembleSearchType := ensemble_search_type (ensemble_spec spec).

(** Intermixed ensemble search: a trial whose id is a multiple of [every]
    yields no tower, any other one searches over the trials whose id is
    not. *)
Definition intermixed_rule_unguarded : Prop :=
  let result :=
    run (first_time_chief_generate spec ENSEMBLE_SEARCH logits_dimension
           hparams run_config is_training trials) in
  search_type = INTERMIXED_NONADAPTIVE_ENSEMBLE_SEARCH ->
  (my_id `mod` every = 0 ->
     exists g, result.2 = inr g /\ towers_of g = [])
  /\ (my_id `mod` every ≠ 0 ->
        searched_over result.1
        = [filter (fun t => trial_id t `mod` every ≠ 0) trials]).

(** Distillation under intermixed ensembling: the best relevant trial's
    tower is loaded, or the search runs over all trials when there is
    none. *)
Definition distillation_rule_unguarded : Prop :=
  let result :=
    run (first_time_chief_generate spec DISTILLATION logits_dimension
           hparams run_config is_training trials) in
  let relevant :=
    get_intermixed_trials trials every
      (Z.of_nat (length (user_suggestions spec))) in
  search_type = INTERMIXED_NONADAPTIVE_ENSEMBLE_SEARCH ->
  (forall best, get_best_k relevant = Some best ->
     get_number_of_towers (trial_dir best) generator_name = 1 ->
     result.2
     = inr (TowerList
              [Tower_load spec "search_generator_0" "search_generator_0"
                 (trial_dir best) (model_dir run_config) is_training
                 logits_dimension false true]))
  /\ (forall best, get_best_k relevant = Some best ->
        get_number_of_towers (trial_dir best) generator_name ≠ 1 ->
        result.2 = inl AssertionError)
  /\ (get_best_k relevant = None -> searched_over result.1 = [trials]).

(** An ensemble search type that is none of the four known ones raises. *)
Definition unknown_type_rule_unguarded : Prop :=
  let result :=
    run (first_time_chief_generate spec ENSEMBLE_SEARCH logits_dimension
           hparams run_config is_training trials) in
  search_type ≠ NONADAPTIVE_ENSEMBLE_SEARCH ->
  search_type ≠ ADAPTIVE_ENSEMBLE_SEARCH ->
  search_type ≠ RESIDUAL_ENSEMBLE_SEARCH ->
  search_type ≠ INTERMIXED_NONADAPTIVE_ENSEMBLE_SEARCH ->
  exists message, result.2 = inl (ValueError message).

End Unguarded.

(** ** A small configuration to run the generator on

    Two user suggestions; the collaborators are the simplest ones: the trial
    id is the last character of the model directory, the search algorithm
    suggests one fully connected block and no parent, the best trial is the
    first of the list. *)
Definition example_trial_id (dir : string) : Z :=
  if decide (dir = "/tmp/1") then 1
  else if decide (dir = "/tmp/2") then 2
  else if decide (dir = "/tmp/3") then 3
  else 4.

Definition example_collaborators : Collaborators := {|
  block_types := {[ "FULLY_CONNECTED" := 1; "CONVOLUTION_3X3" := 2 ]};
  fix_architecture_order := fun arch _ => arch;
  get_trial_id := fun dir _ => example_trial_id dir;
  trial_dir := trial_model_directory;
  get_number_of_towers := fun _ _ => 1;
  get_suggestion := fun _ _ _ _ => ([1], None);
  get_best_k := head;
  ensemble_search_type_number := fun t =>
    match t with
    | NONE => 0
    | NONADAPTIVE_ENSEMBLE_SEARCH => 1
    | ADAPTIVE_ENSEMBLE_SEARCH => 2
    | RESIDUAL_ENSEMBLE_SEARCH => 3
    | INTERMIXED_NONADAPTIVE_ENSEMBLE_SEARCH => 4
    | OTHER n => n
    end
|}.

Definition example_spec (t : EnsembleSearchType) (every : Z) : PhoenixSpec := {|
  user_suggestions :=
    [ {| architecture := ["FULLY_CONNECTED"] |};
      {| architecture := ["CONVOLUTION_3X3"; "FULLY_CONNECTED"] |} ];
  problem_type := 1;
  ensemble_spec := {|
    ensemble_search_type := t;
    adaptive_search_increase_width_every := every;
    intermixed_search_try_ensembling_every := every |};
  transfer_learning_type := SNAPSHOT_TRANSFER_LEARNING
|}.

Definition example_hparams : HParams := {| hparams_attributes := ∅ |}.

Definition example_trials : list Trial :=
  [ {| trial_id := 1; trial_model_directory := "/tmp/1" |};
    {| trial_id := 2; trial_model_directory := "/tmp/2" |};
    {| trial_id := 3; trial_model_directory := "/tmp/3" |} ].

(** ** What a log and a tower show *)

(** The numbers of towers registered, with the generator they are
    registered for, in the order of the calls. *)
Fixpoint registered_towers (log : list Event) : list (string * Z) :=
  match log with
  | [] => []
  | SetNumberOfTowers generator n :: rest =>
      (generator, n) :: registered_towers rest
  | _ :: rest => registered_towers rest
  end.

(** The architectures saved, with the directory and the trial id they are
    saved under. *)
Fixpoint saved_architectures (log : list Event) :
    list (Architecture * string * Z) :=
  match log with
  | [] => []
  | SaveArchitecture arch dir id :: rest =>
      (arch, dir, id) :: saved_architectures rest
  | _ :: rest => saved_architectures rest
  end.

(** The trials whose checkpoint the variables were initialised from. *)
Fixpoint initialised_from (log : list Event) : list (option Trial) :=
  match log with
  | [] => []
  | InitVariables source _ _ :: rest => source :: initialised_from rest
  | _ :: rest => initialised_from rest
  end.

(** The name a tower has in the current trial. *)
Definition tower_name_of (t : Tower) : string :=
  match t with
  | Tower_init _ name _ _ _ _ _ _ _ _ => name
  | Tower_load _ _ name _ _ _ _ _ _ => name
  end.

(** The directory of the trial a tower belongs to. *)
Definition tower_directory (t : Tower) : string :=
  match t with
  | Tower_init _ _ _ _ _ _ _ dir _ _ => dir
  | Tower_load _ _ _ _ dir _ _ _ _ => dir
  end.

(** [is_frozen] of a new tower, [force_freeze] of a loaded one. *)
Definition tower_frozen (t : Tower) : bool :=
  match t with
  | Tower_init _ _ _ _ _ frozen _ _ _ _ => frozen
  | Tower_load _ _ _ _ _ _ _ frozen _ => frozen
  end.

(** The architecture a new tower is built from; a loaded tower is given
    none. *)
Definition tower_architecture_of (t : Tower) : option Architecture :=
  match t with
  | Tower_init _ _ arch _ _ _ _ _ _ _ => Some arch
  | Tower_load _ _ _ _ _ _ _ _ _ => None
  end.

(** ** The ways a call of [first_time_chief_generate] ends *)

Section Outcomes.

Context `{Collaborators}.

Variables (spec : PhoenixSpec) (logits_dimension : Z) (hparams : HParams)
  (run_config : RunConfig) (is_training : bool) (trials : list Trial).

Let current_id : Z := get_trial_id (model_dir run_config) spec.

(** The log and the result of a call: an exception of the generator's own
    code, no tower, the tower of another trial loaded, a user suggestion
    built, or a suggestion of the search algorithm built. *)
Inductive Outcome : list Event * (Exception + Generated) -> Prop :=
| Raised (e : Exception) :
    Outcome ([], inl e)
| NoTower :
    Outcome ([SetNumberOfTowers generator_name 0], inr EmptyPair)
| Loaded (best : Trial) :
    Outcome ([SetNumberOfTowers generator_name 1],
             inr (TowerList
                    [Tower_load spec "search_generator_0" "search_generator_0"
                       (trial_dir best) (model_dir run_config) is_training
                       logits_dimension false true]))
| Suggested (arch : Architecture) :
    _get_user_suggestion spec current_id = inr arch ->
    Outcome ([SaveArchitecture arch (model_dir run_config) current_id;
              SetNumberOfTowers generator_name 1],
             inr (TowerList
                    [new_tower spec arch is_training logits_dimension hparams
                       run_config]))
| Searched (relevant : list Trial) (arch : Architecture)
    (prev_trial : option Z) :
    relevant `sublist_of` trials ->
    get_suggestion relevant hparams current_id (model_dir run_config)
      = (arch, prev_trial) ->
    Outcome (GetSuggestion relevant current_id (model_dir run_config)
             :: SaveArchitecture arch (model_dir run_config) current_id
             :: (if prev_trial_is_positive prev_trial
                    && bool_decide (transfer_learning_type spec
                                    = SNAPSHOT_TRANSFER_LEARNING)
                 then [InitVariables
                         (_get_trial_from_id (default 0 prev_trial) trials)
                         "Phoenix/search_generator_0"
                         "Phoenix/search_generator_0"]
                 else [])
             ++ [SetNumberOfTowers generator_name 1],
             inr (TowerList
                    [new_tower spec arch is_training logits_dimension hparams
                       run_config])).

End Outcomes.

(** ** More configurations to run the generator on *)

(** The collaborators of the example, for a trial with the given id and a
    search algorithm that names the given parent. *)
Definition example_collaborators_with (id : Z) (parent : option Z) :
    Collaborators := {|
  block_types := {[ "FULLY_CONNECTED" := 1; "CONVOLUTION_3X3" := 2 ]};
  fix_architecture_order := fun arch _ => arch;
  get_trial_id := fun _ _ => id;
  trial_dir := trial_model_directory;
  get_number_of_towers := fun _ _ => 1;
  get_suggestion := fun _ _ _ _ => ([1], parent);
  get_best_k := head;
  ensemble_search_type_number := fun _ => 0
|}.

(** A specification whose only suggestion names a block that is no member of
    the enum, after one that is. *)
Definition example_spec_with_unknown_block : PhoenixSpec := {|
  user_suggestions :=
    [ {| architecture := ["FULLY_CONNECTED"; "NO_SUCH_BLOCK"; "CONVOLUTION_3X3"] |} ];
  problem_type := 1;
  ensemble_spec := {|
    ensemble_search_type := NONE;
    adaptive_search_increase_width_every := 0;
    intermixed_search_try_ensembling_every := 0 |};
  transfer_learning_type := NO_TRANSFER_LEARNING
|}.

(** ** The user suggestion read without the order fix *)

Section Verbatim.

Context `{Collaborators}.

Variables (spec : PhoenixSpec) (trial_mode : TrialMode)
  (logits_dimension : Z) (hparams : HParams) (run_config : RunConfig)
  (is_training : bool) (trials : list Trial).


End Verbatim.


End Generator.

Module TaskManager.

(** ** Data

    [model_search/task_manager.py] is not among the sources, only its test
    is.  The definitions of this module follow sections 3 and 4.4 to 4.6 of
    the specification; where the test asserts what the specification leaves
    open or states otherwise (the prediction keys of a multi-task model, the
    transforms outside of training), they follow the test. *)

(** [tf.estimator.ModeKeys]. *)
Inductive Mode := TRAIN | EVAL | PREDICT.

#[global] Instance Mode_eq_dec : EqDecision Mode.
Proof. solve_decision. Defined.

(** A tensor, by an opaque handle. *)
Definition Tensor : Type := Z.

(** One [multi_task_spec] entry (section 3, TaskConfig). *)
Record TaskSpec := {
  label_name : string;
  number_of_classes : Z;
  weight_feature_name : option string;
  weight_is_a_feature : bool
}.

Record PhoenixSpec := {
  multi_task_spec : list TaskSpec;
  merge_losses_of_multitask : bool
}.

(** [labels]: one tensor, or a dictionary of tensors by name. *)
Inductive Labels :=
| LabelTensor (t : Tensor)
| LabelDict (d : gmap string Tensor).

(** The three optimizer-shaping transforms of section 4.5. *)
Inductive Transform := L2WeightLoss | ClipByGlobalNorm | ExponentialDecay.

#[global] Instance Transform_eq_dec : EqDecision Transform.
Proof. solve_decision. Defined.

(** A node a transform adds to the graph: the transform and the label it is
    scoped under, if any. *)
Record Node := { node_scope : option string; node_transform : Transform }.

Definition transform_name (t : Transform) : string :=
  match t with
  | L2WeightLoss => "l2_weight_loss"
  | ClipByGlobalNorm => "clip_by_global_norm"
  | ExponentialDecay => "ExponentialDecay"
  end.

Definition node_name (n : Node) : string :=
  match node_scope n with
  | Some label => String.append label (String.append "/" (transform_name (node_transform n)))
  | None => transform_name (node_transform n)
  end.

(** The three entries every predictions function returns. *)
Inductive PredictionKind := Predictions | Probabilities | LogProbabilities.

Definition kind_name (k : PredictionKind) : string :=
  match k with
  | Predictions => "predictions"
  | Probabilities => "probabilities"
  | LogProbabilities => "log_probabilities"
  end.

Definition prediction_kinds : list PredictionKind :=
  [Predictions; Probabilities; LogProbabilities].

(** A prediction tensor: its kind and the label of the task it is computed
    for ([None] for the implicit single task). *)
Record Prediction := {
  prediction_kind : PredictionKind;
  prediction_task : option string
}.

(** A task's loss: the label it is computed against and the per-example
    weight, if one is configured. *)
Record TaskLoss := { loss_label : option string; loss_weight : option Tensor }.

(** The loss of the model: the tasks' losses, and the coefficient of the L2
    term added to them, if any. *)
Record Loss := { task_losses : list TaskLoss; l2_term : option Float }.

Record ModelSpec := {
  loss : option Loss;
  predictions : gmap string Prediction;
  graph : list Node
}.

(** ** Building the model specification *)

(** A task, as the builder sees it: [None] as label for the single implicit
    task of a specification without [multi_task_spec]. *)
Record Task := {
  task_label : option string;
  task_weight_feature_name : option string;
  task_weight_is_a_feature : bool
}.

Definition task_of_spec (t : TaskSpec) : Task :=
  {| task_label := Some (label_name t);
     task_weight_feature_name := weight_feature_name t;
     task_weight_is_a_feature := weight_is_a_feature t |}.

Definition implicit_task : Task :=
  {| task_label := None;
     task_weight_feature_name := None;
     task_weight_is_a_feature := false |}.

Definition tasks_of (spec : PhoenixSpec) : list Task :=
  match multi_task_spec spec with
  | [] => [implicit_task]
  | specs => map task_of_spec specs
  end.

(** The entries of [labels]; a single tensor holds none. *)
Definition labels_dict (labels : Labels) : gmap string Tensor :=
  match labels with
  | LabelDict d => d
  | LabelTensor _ => ∅
  end.

(** [labels[key]]; a single tensor holds no key. *)
Definition labels_getitem (labels : Labels) (key : string) : Exception + Tensor :=
  match labels with
  | LabelDict d => py_getitem d key
  | LabelTensor _ => inl (KeyError key)
  end.

(** Modelled from the spec: the weight resolution of the task manager,
    which is not among the sources.  Section 4.4: the per-example weight of
    a task is looked up in the features when [weight_is_a_feature], in the
    labels otherwise, and a key that is absent there is a [KeyError]. *)
Definition resolve_weight (features : gmap string Tensor) (labels : Labels)
    (t : Task) : Exception + option Tensor :=
  match task_weight_feature_name t with
  | None => inr None
  | Some key =>
      match (if task_weight_is_a_feature t
             then py_getitem features key
             else labels_getitem labels key) with
      | inl e => inl e
      | inr w => inr (Some w)
      end
  end.

(** The tasks' losses, in the order of the tasks; the first weight that
    cannot be resolved ends the build. *)
Fixpoint build_task_losses (features : gmap string Tensor) (labels : Labels)
    (tasks : list Task) : Exception + list TaskLoss :=
  match tasks with
  | [] => inr []
  | t :: rest =>
      match resolve_weight features labels t with
      | inl e => inl e
      | inr w =>
          match build_task_losses features labels rest with
          | inl e => inl e
          | inr ls => inr ({| loss_label := task_label t; loss_weight := w |} :: ls)
          end
      end
  end.

(** Modelled from the spec: when a field of the learning rate specification
    triggers its transform.  Section 4.5: "when their triggering field is
    present and non-default"; the default of a numeric field is 0. *)
Definition non_default (learning_rate_spec : gmap string Float)
    (field : string) : bool :=
  match learning_rate_spec !! field with
  | Some value => negb (Qeq_bool value 0)
  | None => false
  end.

(** Modelled from the spec: the optimizer policy chain of the task manager,
    which is not among the sources.  Section 4.5: which transforms a
    learning rate specification triggers, each by its field being present
    and non-default.  The decay schedule is computed from both of its
    fields. *)
Definition triggered (learning_rate_spec : gmap string Float) (t : Transform) : bool :=
  match t with
  | L2WeightLoss => non_default learning_rate_spec "l2_regularization"
  | ClipByGlobalNorm => non_default learning_rate_spec "gradient_max_norm"
  | ExponentialDecay =>
      non_default learning_rate_spec "exponential_decay_steps"
      && non_default learning_rate_spec "exponential_decay_rate"
  end.

(** Modelled from the spec: the nodes of the triggered transforms, in the
    order section 4.5 applies them. *)
Definition optimizer_policy_chain (learning_rate_spec : gmap string Float)
    (scope : option string) : list Node :=
  map (fun t => {| node_scope := scope; node_transform := t |})
    (filter (fun t => triggered learning_rate_spec t = true)
       [L2WeightLoss; ClipByGlobalNorm; ExponentialDecay]).

(** Modelled from the spec: the graph the task manager, which is not among
    the sources, builds for the optimizer.  Section 4.6: the chain is
    applied once to the merged loss, or once per task under the task's
    label.  It belongs to the training step: the test finds none of its
    nodes in [EVAL] and [PREDICT] mode. *)
Definition build_graph (spec : PhoenixSpec) (learning_rate_spec : gmap string Float)
    (mode : Mode) (tasks : list Task) : list Node :=
  match mode with
  | TRAIN =>
      if merge_losses_of_multitask spec
      then optimizer_policy_chain learning_rate_spec None
      else concat (map (fun t => optimizer_policy_chain learning_rate_spec (task_label t)) tasks)
  | _ => []
  end.

(** Section 4.4: the key of a prediction, namespaced under the label. *)
Definition namespaced (k : PredictionKind) (label : string) : string :=
  String.append (kind_name k) (String.append "/" label).

(** The key of a task's prediction: the plain name for the implicit task,
    the namespaced one under a label. *)
Definition prediction_key (label : option string) (k : PredictionKind) : string :=
  match label with
  | Some l => namespaced k l
  | None => kind_name k
  end.

(** [predictions.update(...)] with the three entries of one task, the first
    of them written last. *)
Definition update_with_task (label : option string)
    (predictions : gmap string Prediction) : gmap string Prediction :=
  foldr (fun k acc =>
           <[ prediction_key label k
              := {| prediction_kind := k; prediction_task := label |} ]> acc)
    predictions prediction_kinds.

Definition namespaced_entries (tasks : list Task) : gmap string Prediction :=
  foldr (fun t acc => update_with_task (task_label t) acc) ∅ tasks.

(** Modelled from the spec: the predictions the task manager, which is not
    among the sources, merges (section 4.6).  With a [multi_task_spec],
    every task's entries are namespaced and the three kinds are exposed
    under the plain names as well: [test_multitask] finds them next to the
    namespaced ones, nine entries for two tasks. *)
Definition merge_predictions (tasks : list Task) : gmap string Prediction :=
  match tasks with
  | t :: _ => update_with_task None (namespaced_entries tasks)
  | [] => ∅
  end.

(** Modelled from the spec: [TaskManager.create_model_spec], which is not
    among the sources (sections 4.4 to 4.6).  The loss is [None] in
    [PREDICT] mode; the L2 term is part of the training loss when the
    transform is triggered.  This is the build proper; the assertion on the
    labels that the test knows of comes before it, in
    [create_model_spec_asserting]. *)
Definition create_model_spec (spec : PhoenixSpec)
    (features : gmap string Tensor) (labels : Labels)
    (learning_rate_spec : gmap string Float) (mode : Mode) :
    Exception + ModelSpec :=
  let tasks := tasks_of spec in
  match build_task_losses features labels tasks with
  | inl e => inl e
  | inr losses =>
      inr {| loss :=
               match mode with
               | PREDICT => None
               | TRAIN =>
                   Some {| task_losses := losses;
                           l2_term :=
                             if triggered learning_rate_spec L2WeightLoss
                             then learning_rate_spec !! "l2_regularization"
                             else None |}
               | EVAL => Some {| task_losses := losses; l2_term := None |}
               end;
             predictions := merge_predictions tasks;
             graph := build_graph spec learning_rate_spec mode tasks |}
  end.

(** ** The assertions of [task_manager_test.py] *)

(** [phrase in name]. *)
Fixpoint contains (phrase name : string) : bool :=
  String.prefix phrase name
  || match name with
     | EmptyString => false
     | String _ rest => contains phrase rest
     end.

(** Whether some node of the graph has [phrase] in its name. *)
Definition graph_has (phrase : string) (g : list Node) : bool :=
  existsb (fun n => contains phrase (node_name n)) g.

Definition has_key (key : string) (model : ModelSpec) : bool :=
  bool_decide (is_Some (predictions model !! key)).

(** The assertions on the predictions that [test_learning_spec] and its
    [_on_eval] and [_on_predict] variants share. *)
Definition three_plain_predictions (model : ModelSpec) : bool :=
  bool_decide (size (predictions model) = 3%nat)
  && has_key "probabilities" model
  && has_key "log_probabilities" model
  && has_key "predictions" model.

Definition test_learning_spec (contains_node : string)
    (not_containing : list string) (model : ModelSpec) : bool :=
  graph_has contains_node (graph model)
  && forallb (fun phrase => negb (graph_has phrase (graph model))) not_containing
  && three_plain_predictions model.

Definition test_learning_spec_on_eval (not_containing : list string)
    (model : ModelSpec) : bool :=
  forallb (fun phrase => negb (graph_has phrase (graph model))) not_containing
  && three_plain_predictions model
  && bool_decide (loss model ≠ None).

Definition test_learning_spec_on_predict (not_containing : list string)
    (model : ModelSpec) : bool :=
  forallb (fun phrase => negb (graph_has phrase (graph model))) not_containing
  && three_plain_predictions model
  && bool_decide (loss model = None).

(** The last two assertions of [test_multitask]. *)
Definition test_multitask_predictions (model : ModelSpec) : bool :=
  bool_decide (size (predictions model) = (3 * (1 + 2))%nat)
  && forallb (fun key => has_key key model)
       [ "probabilities"; "probabilities/label1"; "probabilities/label2";
         "log_probabilities"; "log_probabilities/label1";
         "log_probabilities/label2";
         "predictions"; "predictions/label1"; "predictions/label2" ].

(** Whether a build returned a model that passes the assertions. *)
Definition passes (assertions : ModelSpec -> bool)
    (built : Exception + ModelSpec) : bool :=
  match built with
  | inr model => assertions model
  | inl _ => false
  end.

(** The inputs of the tests. *)
Definition single_task_spec : PhoenixSpec :=
  {| multi_task_spec := []; merge_losses_of_multitask := false |}.

Definition two_tasks (weights : bool) (weight_is_a_feature : bool) : list TaskSpec :=
  [ {| label_name := "label1"; number_of_classes := 10;
       weight_feature_name := if weights then Some "weight1" else None;
       weight_is_a_feature := weight_is_a_feature |};
    {| label_name := "label2"; number_of_classes := 10;
       weight_feature_name := if weights then Some "weight2" else None;
       weight_is_a_feature := weight_is_a_feature |} ].

Definition test_multitask_spec (merge_losses : bool) : PhoenixSpec :=
  {| multi_task_spec := two_tasks false false;
     merge_losses_of_multitask := merge_losses |}.

Definition weighted_spec (weight_is_a_feature : bool) : PhoenixSpec :=
  {| multi_task_spec := two_tasks true weight_is_a_feature;
     merge_losses_of_multitask := false |}.

Definition test_features : gmap string Tensor := {[ "x" := 0 ]}.

Definition test_weights : gmap string Tensor :=
  {[ "weight1" := 2; "weight2" := 3 ]}.

Definition test_label_dict : gmap string Tensor :=
  {[ "label1" := 1; "label2" := 1 ]}.

Definition l2_reg : gmap string Float :=
  {[ "learning_rate" := (1 # 1000)%Q; "l2_regularization" := (1 # 100)%Q ]}.

Definition clipping : gmap string Float :=
  {[ "learning_rate" := (1 # 1000)%Q; "gradient_max_norm" := (3 # 1)%Q ]}.

Definition decay : gmap string Float :=
  {[ "learning_rate" := (1 # 1000)%Q;
     "exponential_decay_steps" := (100 # 1)%Q;
     "exponential_decay_rate" := (7 # 10)%Q ]}.

(** ** The cardinality of the predictions as section 3 states it

    Three entries per task, and the plain names only for a single task. *)
Definition predictions_invariant_of_section_3 (spec : PhoenixSpec)
    (model : ModelSpec) : Prop :=
  let number_of_tasks := length (multi_task_spec spec) in
  size (predictions model) = (3 * max 1 number_of_tasks)%nat
  /\ ((exists k, is_Some (predictions model !! kind_name k)) ->
      (number_of_tasks <= 1)%nat).

(** ** The assertion on the labels *)

(** Modelled from the spec: [TaskManager.create_model_spec], which is not
    among the sources, with the assertion on [labels] that comes before the
    weights are looked up.  The specification has no word of it;
    [test_wrong_dict_weight_feature] pads its labels "to bypass the
    assertion".  The condition asserted is a parameter. *)
Definition create_model_spec_asserting
    (labels_assertion : PhoenixSpec -> Labels -> bool) (spec : PhoenixSpec)
    (features : gmap string Tensor) (labels : Labels)
    (learning_rate_spec : gmap string Float) (mode : Mode) :
    Exception + ModelSpec :=
  if labels_assertion spec labels
  then create_model_spec spec features labels learning_rate_spec mode
  else inl AssertionError.

(** The tasks whose weight is looked up in the labels. *)
Definition weighted_by_labels (spec : PhoenixSpec) : list TaskSpec :=
  filter (fun t => is_Some (weight_feature_name t)
                   /\ weight_is_a_feature t = false)
    (multi_task_spec spec).

(** The size the labels of every test have, the padded ones of
    [test_wrong_dict_weight_feature] included: a dictionary of labels holds
    one entry per task and one per weight that is looked up in it. *)
Definition labels_size_assertion (spec : PhoenixSpec) (labels : Labels) : bool :=
  match labels with
  | LabelTensor _ => true
  | LabelDict d =>
      bool_decide (size d
                   = (length (multi_task_spec spec)
                      + length (weighted_by_labels spec))%nat)
  end.

(** The weight lookup read without the assertion: a key that the expected
    dictionary lacks is a [KeyError], whatever the labels are. *)
Definition missing_weight_rule_unasserted
    (labels_assertion : PhoenixSpec -> Labels -> bool) (spec : PhoenixSpec)
    (features : gmap string Tensor) (labels : Labels)
    (learning_rate_spec : gmap string Float) (mode : Mode) : Prop :=
  forall i t key,
    multi_task_spec spec !! i = Some t ->
    weight_feature_name t = Some key ->
    (if weight_is_a_feature t then features else labels_dict labels) !! key
      = None ->
    exists missing,
      create_model_spec_asserting labels_assertion spec features labels
        learning_rate_spec mode
      = inl (KeyError missing).

End TaskManager.

(** * The search candidate generator: what it returns and whom it asks *)

Section GeneratorFacts.
Import Generator.
Context `{Collaborators}.

(** Unfolds the operations of the effect monad. *)
Ltac unfold_effects :=
  unfold run, mbind, M_bind, bind, mret, M_ret, ret, emit, lift, raise.

(** An index within the list reads the element at that position. *)
Lemma py_index_nonneg {A : Type} (l : list A) (i : Z) (x : A) :
  0 <= i -> l !! Z.to_nat i = Some x -> py_index l i = inr x.
Proof.
  intros Hi Hx. unfold py_index.
  pose proof (lookup_lt_Some _ _ _ Hx) as Hlt.
  cbv zeta.
  rewrite (decide_False (P := i < 0)) by lia.
  rewrite decide_True by lia.
  destruct (l !! Z.to_nat i) eqn:E; [congruence|].
  apply lookup_ge_None in E. lia.
Qed.


(** [_create_new_architecture] from any log: what it appends and returns. *)
Lemma run_create_new_architecture (spec : PhoenixSpec) arch run_config my_id
    is_training hparams logits_dimension dropout_rate prev_trial trials log :
  _create_new_architecture spec arch run_config my_id is_training hparams
    logits_dimension dropout_rate prev_trial trials log
  = (log ++ [SaveArchitecture arch (model_dir run_config) my_id]
         ++ (if prev_trial_is_positive prev_trial
                && bool_decide (transfer_learning_type spec = SNAPSHOT_TRANSFER_LEARNING)
             then [InitVariables (_get_trial_from_id (default 0 prev_trial) trials)
                     "Phoenix/search_generator_0" "Phoenix/search_generator_0"]
             else [])
         ++ [SetNumberOfTowers generator_name 1],
     inr (TowerList [Tower_init spec "search_generator_0" arch is_training
                       logits_dimension false hparams (model_dir run_config)
                       dropout_rate true])).
Proof.
  unfold _create_new_architecture. unfold_effects.
  destruct (prev_trial_is_positive prev_trial && _); simpl;
    rewrite <- ?app_assoc; reflexivity.
Qed.


(** [_suggest_and_create_architecture] from any log: it asks once, then
    builds the tower of the suggestion. *)
Lemma run_suggest_and_create (spec : PhoenixSpec) relevant run_config my_id
    is_training hparams logits_dimension dropout_rate trials log :
  let suggested := get_suggestion relevant hparams my_id (model_dir run_config) in
  _suggest_and_create_architecture
    (fun arch prev_trial =>
       _create_new_architecture spec arch run_config my_id is_training hparams
         logits_dimension dropout_rate prev_trial trials)
    relevant hparams my_id run_config log
  = (log ++ [GetSuggestion relevant my_id (model_dir run_config);
             SaveArchitecture suggested.1 (model_dir run_config) my_id]
         ++ (if prev_trial_is_positive suggested.2
                && bool_decide (transfer_learning_type spec = SNAPSHOT_TRANSFER_LEARNING)
             then [InitVariables (_get_trial_from_id (default 0 suggested.2) trials)
                     "Phoenix/search_generator_0" "Phoenix/search_generator_0"]
             else [])
         ++ [SetNumberOfTowers generator_name 1],
     inr (TowerList [Tower_init spec "search_generator_0" suggested.1 is_training
                       logits_dimension false hparams (model_dir run_config)
                       dropout_rate true])).
Proof.
  intros suggested. unfold _suggest_and_create_architecture.
  unfold mbind, M_bind, bind, emit. subst suggested.
  destruct (get_suggestion relevant hparams my_id (model_dir run_config))
    as [arch prev_trial].
  rewrite run_create_new_architecture. simpl.
  rewrite <- !app_assoc. reflexivity.
Qed.

(** The calls of a log in two parts. *)
Lemma searched_over_app (l1 l2 : list Event) :
  searched_over (l1 ++ l2) = searched_over l1 ++ searched_over l2.
Proof.
  induction l1 as [|ev l1 IH]; simpl; [reflexivity|].
  destruct ev; simpl; rewrite IH; reflexivity.
Qed.



(** Steps over the user-suggestion test of a trial that is past the
    suggestions. *)
Ltac guard_passed Hid :=
  unfold first_time_chief_generate, run;
  rewrite (decide_False (P := _ <= Z.of_nat _)) by (clear -Hid; lia).

(** C3, for the trials that are past the user suggestions.  Under
    intermixed ensemble search with a non-zero [try_ensembling_every], a
    trial whose id is a multiple of it registers zero towers and returns
    the empty pair without asking the search algorithm; any other trial
    asks the search algorithm exactly once, about the trials whose id is no
    multiple, and returns the one tower built from its suggestion. *)
Theorem intermixed_exploration_and_exploitation (spec : PhoenixSpec)
    (logits_dimension : Z) (hparams : HParams) (run_config : RunConfig)
    (is_training : bool) (trials : list Trial) :
  let my_id := get_trial_id (model_dir run_config) spec in
  let every := intermixed_search_try_ensembling_every (ensemble_spec spec) in
  let relevant := filter (fun t => trial_id t `mod` every ≠ 0) trials in
  let result :=
    run (first_time_chief_generate spec ENSEMBLE_SEARCH logits_dimension
           hparams run_config is_training trials) in
  ensemble_search_type (ensemble_spec spec)
    = INTERMIXED_NONADAPTIVE_ENSEMBLE_SEARCH ->
  every ≠ 0 ->
  Z.of_nat (length (user_suggestions spec)) < my_id ->
  (my_id `mod` every = 0 ->
     result = ([SetNumberOfTowers generator_name 0], inr EmptyPair))
  /\ (my_id `mod` every ≠ 0 ->
        searched_over result.1 = [relevant]
        /\ result.2
           = inr (TowerList
                    [new_tower spec
                       (get_suggestion relevant hparams my_id
                          (model_dir run_config)).1
                       is_training logits_dimension hparams run_config])
        /\ forall t, t ∈ relevant <-> t ∈ trials /\ trial_id t `mod` every ≠ 0).
Proof.
  intros my_id every relevant result Htype Hevery Hid.
  subst result. guard_passed Hid. fold my_id.
  rewrite decide_True by reflexivity.
  unfold is_nonadaptive_ensemble_search, is_adaptive_ensemble_search,
    is_residual_ensemble_search, is_intermixed_ensemble_search.
  rewrite Htype. simpl. fold every.
  rewrite (decide_False (P := every = 0)) by assumption.
  split; intros Hmod.
  - rewrite decide_True by assumption. reflexivity.
  - rewrite decide_False by assumption.
    rewrite run_suggest_and_create. fold relevant. simpl.
    split; [|split].
    + rewrite searched_over_app. simpl.
      destruct (_ && _); reflexivity.
    + reflexivity.
    + intros t. subst relevant. rewrite list_elem_of_filter. tauto.
Qed.

(** C4.  Under adaptive or residual ensemble search, every list of
    relevant trials the search algorithm is asked about is the window of
    the trials with an id of at least [my_id // every * every] when
    [every] is positive, and the whole history when it is 0; and a trial
    past the user suggestions asks exactly once. *)
Theorem adaptive_window_searched (spec : PhoenixSpec)
    (logits_dimension : Z) (hparams : HParams) (run_config : RunConfig)
    (is_training : bool) (trials : list Trial) :
  let my_id := get_trial_id (model_dir run_config) spec in
  let every := adaptive_search_increase_width_every (ensemble_spec spec) in
  let window :=
    if decide (0 < every)
    then filter (fun t => my_id `div` every * every <= trial_id t) trials
    else trials in
  let log :=
    (run (first_time_chief_generate spec ENSEMBLE_SEARCH logits_dimension
            hparams run_config is_training trials)).1 in
  ensemble_search_type (ensemble_spec spec) = ADAPTIVE_ENSEMBLE_SEARCH
  \/ ensemble_search_type (ensemble_spec spec) = RESIDUAL_ENSEMBLE_SEARCH ->
  0 <= every ->
  (forall relevant, relevant ∈ searched_over log -> relevant = window)
  /\ (Z.of_nat (length (user_suggestions spec)) < my_id ->
      searched_over log = [window]).
Proof.
  intros my_id every window log Htype Hevery.
  assert (Hsearch : Z.of_nat (length (user_suggestions spec)) < my_id ->
                    searched_over log = [window]).
  { intros Hid. subst log. guard_passed Hid. fold my_id.
    rewrite decide_True by reflexivity.
    unfold is_nonadaptive_ensemble_search, is_adaptive_ensemble_search,
      is_residual_ensemble_search.
    replace (bool_decide (ensemble_search_type (ensemble_spec spec)
                          = NONADAPTIVE_ENSEMBLE_SEARCH)) with false
      by (destruct Htype as [-> | ->]; reflexivity).
    replace (bool_decide (ensemble_search_type (ensemble_spec spec)
                          = ADAPTIVE_ENSEMBLE_SEARCH)
             || bool_decide (ensemble_search_type (ensemble_spec spec)
                             = RESIDUAL_ENSEMBLE_SEARCH)) with true
      by (destruct Htype as [-> | ->]; reflexivity).
    fold every. rewrite run_suggest_and_create. simpl.
    rewrite searched_over_app. simpl.
    replace (if decide (every ≠ 0) then _ else trials) with window.
    - destruct (_ && _); reflexivity.
    - subst window. repeat case_decide; try reflexivity; lia. }
  split; [|exact Hsearch].
  intros relevant Hin.
  destruct (decide (Z.of_nat (length (user_suggestions spec)) < my_id)) as [Hid|Hid].
  - rewrite (Hsearch Hid) in Hin. apply list_elem_of_singleton in Hin. exact Hin.
  - exfalso. subst log. revert Hin.
    unfold first_time_chief_generate, run. fold my_id.
    rewrite decide_True by lia.
    unfold mbind, M_bind, bind, lift.
    destruct (_get_user_suggestion spec my_id) as [e|arch].
    + simpl. intros Hin. inversion Hin.
    + rewrite run_create_new_architecture.
      destruct (_ && _); simpl; intros Hin; inversion Hin.
Qed.


(** C5, for the trials that are past the user suggestions.  In a
    distillation trial under intermixed ensembling the relevant trials are
    those whose id is no multiple of [try_ensembling_every] and is past the
    user suggestions.  When [get_best_k] names a best one among them and
    that trial recorded one tower, the tower is loaded from its directory
    into the directory of the current trial, one tower is registered and
    nothing is searched; when it recorded another number the assertion
    fails.  When [get_best_k] names none, the search algorithm is asked
    about the whole history. *)
Theorem distillation_clones_best_or_searches (spec : PhoenixSpec)
    (logits_dimension : Z) (hparams : HParams) (run_config : RunConfig)
    (is_training : bool) (trials : list Trial) :
  let my_id := get_trial_id (model_dir run_config) spec in
  let every := intermixed_search_try_ensembling_every (ensemble_spec spec) in
  let suggestions := Z.of_nat (length (user_suggestions spec)) in
  let relevant :=
    filter (fun t => trial_id t `mod` every ≠ 0 /\ suggestions < trial_id t)
      trials in
  let result :=
    run (first_time_chief_generate spec DISTILLATION logits_dimension
           hparams run_config is_training trials) in
  ensemble_search_type (ensemble_spec spec)
    = INTERMIXED_NONADAPTIVE_ENSEMBLE_SEARCH ->
  every ≠ 0 ->
  suggestions < my_id ->
  (forall best, get_best_k relevant = Some best ->
     get_number_of_towers (trial_dir best) generator_name = 1 ->
     result = ([SetNumberOfTowers generator_name 1],
               inr (TowerList
                      [Tower_load spec "search_generator_0"
                         "search_generator_0" (trial_dir best)
                         (model_dir run_config) is_training logits_dimension
                         false true])))
  /\ (forall best, get_best_k relevant = Some best ->
        get_number_of_towers (trial_dir best) generator_name ≠ 1 ->
        result = ([], inl AssertionError))
  /\ (get_best_k relevant = None ->
        searched_over result.1 = [trials]
        /\ result.2
           = inr (TowerList
                    [new_tower spec
                       (get_suggestion trials hparams my_id
                          (model_dir run_config)).1
                       is_training logits_dimension hparams run_config])).
Proof.
  intros my_id every suggestions relevant result Htype Hevery Hid.
  subst result. guard_passed Hid. fold my_id.
  rewrite (decide_False (P := DISTILLATION = ENSEMBLE_SEARCH)) by discriminate.
  unfold is_intermixed_ensemble_search. rewrite Htype.
  rewrite !bool_decide_eq_true_2 by reflexivity.
  cbn [andb]. unfold get_intermixed_trials.
  fold every suggestions relevant.
  unfold mbind, M_bind, bind.
  split; [|split].
  - intros best Hbest Hone. rewrite Hbest.
    rewrite decide_True by assumption. reflexivity.
  - intros best Hbest Hone. rewrite Hbest.
    rewrite decide_False by assumption. reflexivity.
  - intros Hnone. rewrite Hnone.
    unfold mret, M_ret, ret.
    rewrite run_suggest_and_create. simpl. split; [|reflexivity].
    rewrite searched_over_app. simpl. destruct (_ && _); reflexivity.
Qed.

(** C8, for the trials that are past the user suggestions.  An ensemble
    search trial whose search type is none of the four known ones raises a
    [ValueError] whose message shows the type, before anything is saved,
    registered or searched. *)
Theorem unknown_ensemble_search_type_raises (spec : PhoenixSpec)
    (logits_dimension : Z) (hparams : HParams) (run_config : RunConfig)
    (is_training : bool) (trials : list Trial) :
  let my_id := get_trial_id (model_dir run_config) spec in
  let search_type := ensemble_search_type (ensemble_spec spec) in
  search_type ≠ NONADAPTIVE_ENSEMBLE_SEARCH ->
  search_type ≠ ADAPTIVE_ENSEMBLE_SEARCH ->
  search_type ≠ RESIDUAL_ENSEMBLE_SEARCH ->
  search_type ≠ INTERMIXED_NONADAPTIVE_ENSEMBLE_SEARCH ->
  Z.of_nat (length (user_suggestions spec)) < my_id ->
  run (first_time_chief_generate spec ENSEMBLE_SEARCH logits_dimension
         hparams run_config is_training trials)
  = ([], inl (ValueError
                (String.append "Unknown ensemble search type '"
                   (String.append
                      (pretty (ensemble_search_type_number search_type))
                      "'")))).
Proof.
  intros my_id search_type Hn Ha Hr Hi Hid.
  guard_passed Hid.
  rewrite decide_True by reflexivity.
  unfold is_nonadaptive_ensemble_search, is_adaptive_ensemble_search,
    is_residual_ensemble_search, is_intermixed_ensemble_search.
  fold search_type.
  rewrite !bool_decide_eq_false_2 by assumption.
  reflexivity.
Qed.

(** X14.  Non-adaptive ensemble search registers zero towers and returns
    the empty pair, for every trial past the user suggestions, without
    asking the search algorithm. *)
Lemma nonadaptive_yields_no_tower (spec : PhoenixSpec)
    (logits_dimension : Z) (hparams : HParams) (run_config : RunConfig)
    (is_training : bool) (trials : list Trial) :
  ensemble_search_type (ensemble_spec spec) = NONADAPTIVE_ENSEMBLE_SEARCH ->
  Z.of_nat (length (user_suggestions spec))
    < get_trial_id (model_dir run_config) spec ->
  run (first_time_chief_generate spec ENSEMBLE_SEARCH logits_dimension
         hparams run_config is_training trials)
  = ([SetNumberOfTowers generator_name 0], inr EmptyPair).
Proof.
  intros Htype Hid. guard_passed Hid.
  rewrite decide_True by reflexivity.
  unfold is_nonadaptive_ensemble_search. rewrite Htype. reflexivity.
Qed.

(** X15.  [my_id % every] with [every = 0]: past the user suggestions,
    intermixed ensemble search raises [ZeroDivisionError] before anything
    is registered. *)
Lemma intermixed_with_zero_every_raises (spec : PhoenixSpec)
    (logits_dimension : Z) (hparams : HParams) (run_config : RunConfig)
    (is_training : bool) (trials : list Trial) :
  ensemble_search_type (ensemble_spec spec)
    = INTERMIXED_NONADAPTIVE_ENSEMBLE_SEARCH ->
  intermixed_search_try_ensembling_every (ensemble_spec spec) = 0 ->
  Z.of_nat (length (user_suggestions spec))
    < get_trial_id (model_dir run_config) spec ->
  run (first_time_chief_generate spec ENSEMBLE_SEARCH logits_dimension
         hparams run_config is_training trials)
  = ([], inl ZeroDivisionError).
Proof.
  intros Htype Hevery Hid. guard_passed Hid.
  rewrite decide_True by reflexivity.
  unfold is_nonadaptive_ensemble_search, is_adaptive_ensemble_search,
    is_residual_ensemble_search, is_intermixed_ensemble_search.
  rewrite Htype, Hevery. reflexivity.
Qed.

(** A trial without prior, past the user suggestions, asks the search
    algorithm about the whole history. *)
Lemma no_prior_searches_whole_history (spec : PhoenixSpec)
    (logits_dimension : Z) (hparams : HParams) (run_config : RunConfig)
    (is_training : bool) (trials : list Trial) :
  Z.of_nat (length (user_suggestions spec))
    < get_trial_id (model_dir run_config) spec ->
  searched_over
    (run (first_time_chief_generate spec NO_PRIOR logits_dimension
            hparams run_config is_training trials)).1
  = [trials].
Proof.
  intros Hid. guard_passed Hid.
  rewrite (decide_False (P := NO_PRIOR = ENSEMBLE_SEARCH)) by discriminate.
  rewrite (bool_decide_eq_false_2 (NO_PRIOR = DISTILLATION)) by discriminate.
  cbn [andb]. unfold mbind, M_bind, bind, mret, M_ret, ret.
  rewrite run_suggest_and_create. simpl.
  rewrite searched_over_app. simpl. destruct (_ && _); reflexivity.
Qed.

End GeneratorFacts.

Section GeneratorRuns.
Import Generator.

(** Closes a goal that evaluation decides. *)
Ltac evaluated := vm_compute; repeat split; (reflexivity || (intros; discriminate)).


(** C3 as it is stated fails: trial 2 of a study with two user suggestions
    and [try_ensembling_every = 2] is a multiple of 2 and returns a
    tower, the one of the second suggestion. *)
Lemma intermixed_rule_fails_on_user_suggestion :
  ~ intermixed_rule_unguarded (H := example_collaborators)
      (example_spec INTERMIXED_NONADAPTIVE_ENSEMBLE_SEARCH 2) 10
      example_hparams {| model_dir := "/tmp/2" |} true example_trials.
Proof.
  intros Hrule. destruct (Hrule eq_refl) as [Hzero _].
  destruct (Hzero eq_refl) as (g & Hg & Hnone).
  vm_compute in Hg. injection Hg as <-. discriminate Hnone.
Qed.

(** C5 as it is stated fails: in trial 2 of a study with two user
    suggestions, trial 3 is relevant and the best, and the tower returned
    is the one of the second suggestion, not the loaded one. *)
Lemma distillation_rule_fails_on_user_suggestion :
  ~ distillation_rule_unguarded (H := example_collaborators)
      (example_spec INTERMIXED_NONADAPTIVE_ENSEMBLE_SEARCH 2) 10
      example_hparams {| model_dir := "/tmp/2" |} true example_trials.
Proof.
  intros Hrule. destruct (Hrule eq_refl) as [Hload _].
  specialize (Hload {| trial_id := 3; trial_model_directory := "/tmp/3" |}
                eq_refl eq_refl).
  vm_compute in Hload. discriminate Hload.
Qed.

(** C8 as it is stated fails: trial 1 of a study with user suggestions
    returns the tower of the first suggestion under the search type
    [NONE]. *)
Lemma unknown_type_rule_fails_on_user_suggestion :
  ~ unknown_type_rule_unguarded (H := example_collaborators)
      (example_spec NONE 0) 10
      example_hparams {| model_dir := "/tmp/1" |} true example_trials.
Proof.
  intros Hrule.
  destruct (Hrule ltac:(discriminate) ltac:(discriminate)
              ltac:(discriminate) ltac:(discriminate)) as (message & Hraised).
  vm_compute in Hraised. discriminate Hraised.
Qed.



(** Trial 4 of the example, with [try_ensembling_every = 2], does not
    search. *)
Lemma intermixed_example :
  run (first_time_chief_generate (H := example_collaborators)
         (example_spec INTERMIXED_NONADAPTIVE_ENSEMBLE_SEARCH 2)
         ENSEMBLE_SEARCH 10 example_hparams {| model_dir := "/tmp/4" |} true
         example_trials)
  = ([SetNumberOfTowers "search_generator" 0], inr EmptyPair).
Proof.
  apply (intermixed_exploration_and_exploitation
           (H := example_collaborators)
           (example_spec INTERMIXED_NONADAPTIVE_ENSEMBLE_SEARCH 2) 10
           example_hparams {| model_dir := "/tmp/4" |} true example_trials);
    [reflexivity | evaluated | evaluated | reflexivity].
Defined.

(** Trial 3 of the example, with [increase_width_every = 2], searches over
    trials 2 and 3. *)
Lemma adaptive_window_example :
  searched_over
    (run (first_time_chief_generate (H := example_collaborators)
            (example_spec ADAPTIVE_ENSEMBLE_SEARCH 2) ENSEMBLE_SEARCH 10
            example_hparams {| model_dir := "/tmp/3" |} true
            example_trials)).1
  = [[ {| trial_id := 2; trial_model_directory := "/tmp/2" |};
       {| trial_id := 3; trial_model_directory := "/tmp/3" |} ]].
Proof.
  apply (adaptive_window_searched (H := example_collaborators)
           (example_spec ADAPTIVE_ENSEMBLE_SEARCH 2) 10 example_hparams
           {| model_dir := "/tmp/3" |} true example_trials);
    [left; reflexivity | evaluated | evaluated].
Defined.

(** Trial 4 of the example loads the tower of trial 3. *)
Lemma distillation_example :
  run (first_time_chief_generate (H := example_collaborators)
         (example_spec INTERMIXED_NONADAPTIVE_ENSEMBLE_SEARCH 2)
         DISTILLATION 10 example_hparams {| model_dir := "/tmp/4" |} true
         example_trials)
  = ([SetNumberOfTowers "search_generator" 1],
     inr (TowerList
            [Tower_load (example_spec INTERMIXED_NONADAPTIVE_ENSEMBLE_SEARCH 2)
               "search_generator_0" "search_generator_0" "/tmp/3" "/tmp/4"
               true 10 false true])).
Proof.
  destruct (distillation_clones_best_or_searches (H := example_collaborators)
              (example_spec INTERMIXED_NONADAPTIVE_ENSEMBLE_SEARCH 2) 10
              example_hparams {| model_dir := "/tmp/4" |} true example_trials
              ltac:(reflexivity) ltac:(evaluated) ltac:(evaluated))
    as [Hload _].
  apply (Hload {| trial_id := 3; trial_model_directory := "/tmp/3" |});
    reflexivity.
Defined.

(** Trial 3 of the example under the search type [NONE]. *)
Lemma unknown_type_example :
  run (first_time_chief_generate (H := example_collaborators)
         (example_spec NONE 0) ENSEMBLE_SEARCH 10 example_hparams
         {| model_dir := "/tmp/3" |} true example_trials)
  = ([], inl (ValueError "Unknown ensemble search type '0'")).
Proof.
  apply (unknown_ensemble_search_type_raises (H := example_collaborators)
           (example_spec NONE 0) 10 example_hparams
           {| model_dir := "/tmp/3" |} true example_trials);
    (discriminate || evaluated).
Defined.


End GeneratorRuns.

(** * The task manager *)

Section TaskManagerFacts.
Import TaskManager.

(** A key determines its label and its kind. *)
Lemma prediction_key_inj (a b : option string) (k k' : PredictionKind) :
  prediction_key a k = prediction_key b k' -> a = b /\ k = k'.
Proof.
  destruct a as [la|], b as [lb|], k, k'; simpl;
    intros Heq; simplify_eq; split; reflexivity.
Qed.

(** The three insertions of one task. *)
Lemma update_with_task_unfold (label : option string) (m : gmap string Prediction) :
  update_with_task label m
  = <[prediction_key label Predictions
      := {| prediction_kind := Predictions; prediction_task := label |}]>
      (<[prediction_key label Probabilities
         := {| prediction_kind := Probabilities; prediction_task := label |}]>
         (<[prediction_key label LogProbabilities
            := {| prediction_kind := LogProbabilities; prediction_task := label |}]> m)).
Proof. reflexivity. Qed.

(** The keys after the entries of one task were written. *)
Lemma lookup_update_with_task (label : option string)
    (m : gmap string Prediction) (key : string) :
  is_Some (update_with_task label m !! key) <->
  (exists k, key = prediction_key label k) \/ is_Some (m !! key).
Proof.
  rewrite update_with_task_unfold. rewrite !lookup_insert_is_Some'.
  split.
  - intros [<-|[<-|[<-|Hm]]]; eauto.
  - intros [[[] ->]|Hm]; eauto.
Qed.

(** Three more entries when none of the task's keys was there. *)
Lemma size_update_with_task (label : option string) (m : gmap string Prediction) :
  (forall k, m !! prediction_key label k = None) ->
  size (update_with_task label m) = (3 + size m)%nat.
Proof.
  intros Hfresh. rewrite update_with_task_unfold.
  rewrite !map_size_insert_None; [reflexivity|..].
  - apply Hfresh.
  - rewrite lookup_insert_ne; [apply Hfresh|].
    intros Heq. apply prediction_key_inj in Heq as [_ Heq]. discriminate.
  - rewrite !lookup_insert_ne; [apply Hfresh|..];
      intros Heq; apply prediction_key_inj in Heq as [_ Heq]; discriminate.
Qed.

(** The keys of the tasks' entries. *)
Lemma lookup_namespaced_entries (tasks : list Task) (key : string) :
  is_Some (namespaced_entries tasks !! key) <->
  exists t k, t ∈ tasks /\ key = prediction_key (task_label t) k.
Proof.
  induction tasks as [|t rest IH]; simpl.
  - rewrite lookup_empty. split.
    + intros [? ?]. discriminate.
    + intros (t & k & Hin & _). inversion Hin.
  - rewrite lookup_update_with_task, IH. split.
    + intros [[k ->]|(t' & k & Hin & ->)].
      * exists t, k. split; [left|reflexivity].
      * exists t', k. split; [right; assumption|reflexivity].
    + intros (t' & k & Hin & ->).
      apply elem_of_cons in Hin as [->|Hin]; [left; eauto|right; eauto].
Qed.

(** Three entries per task when no label occurs twice. *)
Lemma size_namespaced_entries (tasks : list Task) :
  NoDup (map task_label tasks) ->
  size (namespaced_entries tasks) = (3 * length tasks)%nat.
Proof.
  induction tasks as [|t rest IH]; simpl; intros Hnodup.
  - apply map_size_empty.
  - apply NoDup_cons in Hnodup as [Hnotin Hnodup].
    rewrite size_update_with_task; [rewrite IH by assumption; lia|].
    intros k. apply eq_None_not_Some.
    rewrite lookup_namespaced_entries.
    intros (t' & k' & Hin & Heq).
    apply prediction_key_inj in Heq as [Heq _].
    apply Hnotin. rewrite Heq. apply list_elem_of_fmap. eauto.
Qed.


(** The parts of a model that was built. *)
Lemma create_model_spec_inr (spec : PhoenixSpec) features labels
    learning_rate_spec mode model :
  create_model_spec spec features labels learning_rate_spec mode = inr model ->
  predictions model = merge_predictions (tasks_of spec)
  /\ graph model = build_graph spec learning_rate_spec mode (tasks_of spec)
  /\ exists losses,
       build_task_losses features labels (tasks_of spec) = inr losses
       /\ loss model
          = match mode with
            | PREDICT => None
            | TRAIN => Some {| task_losses := losses;
                               l2_term :=
                                 if triggered learning_rate_spec L2WeightLoss
                                 then learning_rate_spec !! "l2_regularization"
                                 else None |}
            | EVAL => Some {| task_losses := losses; l2_term := None |}
            end.
Proof.
  unfold create_model_spec.
  destruct (build_task_losses features labels (tasks_of spec)) as [e|losses];
    [discriminate|].
  intros [= <-]. simpl. eauto.
Qed.

(** The labels of the tasks of a [multi_task_spec]. *)
Lemma task_labels_of_specs (specs : list TaskSpec) :
  map task_label (map task_of_spec specs) = Some <$> map label_name specs.
Proof.
  induction specs as [|s rest IH]; [reflexivity|].
  simpl. f_equal. exact IH.
Qed.

(** The number of predictions of a multi-task model. *)
Lemma size_merge_predictions_labelled (specs : list TaskSpec) :
  specs ≠ [] ->
  NoDup (map label_name specs) ->
  size (merge_predictions (map task_of_spec specs))
  = (3 * (1 + length specs))%nat.
Proof.
  intros Hne Hnodup. destruct specs as [|s rest]; [congruence|].
  change (merge_predictions (map task_of_spec (s :: rest)))
    with (update_with_task None (namespaced_entries (map task_of_spec (s :: rest)))).
  rewrite size_update_with_task.
  - rewrite size_namespaced_entries.
    + rewrite length_map. lia.
    + rewrite task_labels_of_specs.
      apply NoDup_fmap_2; [apply _|exact Hnodup].
  - intros k. apply eq_None_not_Some. rewrite lookup_namespaced_entries.
    intros (t & k' & Hin & Heq).
    apply prediction_key_inj in Heq as [Heq _].
    apply list_elem_of_fmap in Hin as (s' & -> & _). discriminate Heq.
Qed.

(** The keys of the predictions of a multi-task model. *)
Lemma lookup_merge_predictions_labelled (specs : list TaskSpec) (key : string) :
  specs ≠ [] ->
  is_Some (merge_predictions (map task_of_spec specs) !! key) <->
  (exists k, key = kind_name k)
  \/ (exists k t, t ∈ specs /\ key = namespaced k (label_name t)).
Proof.
  intros Hne. destruct specs as [|s rest]; [congruence|].
  change (merge_predictions (map task_of_spec (s :: rest)))
    with (update_with_task None (namespaced_entries (map task_of_spec (s :: rest)))).
  rewrite lookup_update_with_task, lookup_namespaced_entries.
  split; (intros [Hplain|Hns]; [left; exact Hplain|right]).
  - destruct Hns as (t & k & Hin & ->).
    apply list_elem_of_fmap in Hin as (s' & -> & Hin). eauto.
  - destruct Hns as (k & t & Hin & ->). exists (task_of_spec t), k.
    split; [|reflexivity]. apply list_elem_of_fmap. eauto.
Qed.

(** C1, as the test has it.  With task labels that are pairwise distinct:
    a model without [multi_task_spec] has the three plain keys and no
    other; a model of two or more tasks has three keys per task, namespaced
    under the task's label, and the three plain keys next to them, which
    makes [3 * (1 + number of tasks)] entries. *)
Theorem predictions_cardinality (spec : PhoenixSpec)
    (features : gmap string Tensor) (labels : Labels)
    (learning_rate_spec : gmap string Float) (mode : Mode) (model : ModelSpec) :
  let tasks := multi_task_spec spec in
  create_model_spec spec features labels learning_rate_spec mode = inr model ->
  NoDup (map label_name tasks) ->
  (tasks = [] ->
     size (predictions model) = 3%nat
     /\ forall key, is_Some (predictions model !! key)
                    <-> exists k, key = kind_name k)
  /\ ((2 <= length tasks)%nat ->
        size (predictions model) = (3 * (1 + length tasks))%nat
        /\ forall key, is_Some (predictions model !! key)
                       <-> (exists k, key = kind_name k)
                           \/ (exists k t, t ∈ tasks
                                           /\ key = namespaced k (label_name t))).
Proof.
  intros tasks Hbuilt Hnodup.
  apply create_model_spec_inr in Hbuilt as (-> & _ & _).
  unfold tasks_of. fold tasks. split.
  - intros ->. split; [reflexivity|].
    intros key.
    change (merge_predictions [implicit_task])
      with (update_with_task None (update_with_task None ∅)).
    rewrite !lookup_update_with_task, lookup_empty.
    split; [intros [Hk|[Hk|[? ?]]]; (assumption || discriminate)|auto].
  - intros Hlen.
    assert (Hne : tasks ≠ []) by (intros Heq; rewrite Heq in Hlen; simpl in Hlen; lia).
    destruct tasks as [|s rest] eqn:Htasks; [congruence|].
    split.
    + apply size_merge_predictions_labelled; assumption.
    + intros key. apply lookup_merge_predictions_labelled. assumption.
Qed.


(** There is always a task: the implicit one at least. *)
Lemma tasks_of_nonempty (spec : PhoenixSpec) : tasks_of spec ≠ [].
Proof.
  unfold tasks_of. destruct (multi_task_spec spec); discriminate.
Qed.

(** The nodes of the chain: the triggered transforms, under the scope. *)
Lemma elem_of_optimizer_policy_chain (learning_rate_spec : gmap string Float)
    (scope : option string) (n : Node) :
  n ∈ optimizer_policy_chain learning_rate_spec scope <->
  node_scope n = scope /\ triggered learning_rate_spec (node_transform n) = true.
Proof.
  unfold optimizer_policy_chain.
  change (n ∈ (fun t => {| node_scope := scope; node_transform := t |})
              <$> filter (fun t => triggered learning_rate_spec t = true)
                    [L2WeightLoss; ClipByGlobalNorm; ExponentialDecay]
          <-> node_scope n = scope
              /\ triggered learning_rate_spec (node_transform n) = true).
  rewrite list_elem_of_fmap. split.
  - intros (t & -> & Hin). apply list_elem_of_filter in Hin as [Ht _].
    split; [reflexivity|exact Ht].
  - intros [<- Ht]. exists (node_transform n). split; [destruct n; reflexivity|].
    apply list_elem_of_filter. split; [exact Ht|].
    destruct (node_transform n); repeat constructor.
Qed.

(** A transform has a node in the training graph exactly when it is
    triggered, with merged losses or without. *)
Lemma transform_in_training_graph (spec : PhoenixSpec)
    (learning_rate_spec : gmap string Float) (t : Transform) :
  (exists n, n ∈ build_graph spec learning_rate_spec TRAIN (tasks_of spec)
             /\ node_transform n = t)
  <-> triggered learning_rate_spec t = true.
Proof.
  simpl. split.
  - intros (n & Hin & <-).
    destruct (merge_losses_of_multitask spec).
    + apply elem_of_optimizer_policy_chain in Hin as [_ Ht]. exact Ht.
    + apply list_elem_of_In, in_concat in Hin as (chain & Hchain & Hin).
      apply in_map_iff in Hchain as (task & <- & _).
      apply list_elem_of_In, elem_of_optimizer_policy_chain in Hin as [_ Ht].
      exact Ht.
  - intros Ht. destruct (merge_losses_of_multitask spec).
    + exists {| node_scope := None; node_transform := t |}.
      split; [|reflexivity]. apply elem_of_optimizer_policy_chain. auto.
    + pose proof (tasks_of_nonempty spec) as Hne.
      destruct (tasks_of spec) as [|task rest]; [congruence|].
      exists {| node_scope := task_label task; node_transform := t |}.
      split; [|reflexivity]. simpl. apply elem_of_app. left.
      apply elem_of_optimizer_policy_chain. auto.
Qed.

(** A field is non-default exactly when it holds a value other than 0. *)
Lemma non_default_true (learning_rate_spec : gmap string Float)
    (field : string) :
  non_default learning_rate_spec field = true
  <-> exists value, learning_rate_spec !! field = Some value
                    /\ ~ (value == 0)%Q.
Proof.
  unfold non_default.
  destruct (learning_rate_spec !! field) as [value|]; split.
  - intros Hset. exists value. split; [reflexivity|].
    intros Hzero. apply Qeq_bool_iff in Hzero. rewrite Hzero in Hset.
    discriminate Hset.
  - intros (value' & [= <-] & Hne).
    destruct (Qeq_bool value 0) eqn:Hzero; [|reflexivity].
    apply Qeq_bool_iff in Hzero. contradiction.
  - discriminate.
  - intros (value & Hsome & _). discriminate Hsome.
Qed.

(** C6.  In training mode a transform has a node in the graph exactly
    when the learning rate specification sets its field, that is, holds a
    value for it other than the default 0: L2 weight loss for
    [l2_regularization], clipping for [gradient_max_norm], exponential
    decay for [exponential_decay_steps] together with
    [exponential_decay_rate].  A field that is absent, or present with its
    default, leaves no node of its transform, with merged losses or
    without. *)
Theorem triggered_transforms_in_training (spec : PhoenixSpec)
    (features : gmap string Tensor) (labels : Labels)
    (learning_rate_spec : gmap string Float) (model : ModelSpec) :
  let present t := exists n, n ∈ graph model /\ node_transform n = t in
  let set field :=
    exists value, learning_rate_spec !! field = Some value
                  /\ ~ (value == 0)%Q in
  create_model_spec spec features labels learning_rate_spec TRAIN = inr model ->
  (present L2WeightLoss <-> set "l2_regularization")
  /\ (present ClipByGlobalNorm <-> set "gradient_max_norm")
  /\ (present ExponentialDecay
      <-> set "exponential_decay_steps" /\ set "exponential_decay_rate").
Proof.
  intros present set Hbuilt. subst present set.
  apply create_model_spec_inr in Hbuilt as (_ & -> & _).
  rewrite !transform_in_training_graph. simpl.
  rewrite andb_true_iff, !non_default_true. tauto.
Qed.

(** Tasks without weights always build. *)
Lemma build_task_losses_unweighted (features : gmap string Tensor)
    (labels : Labels) (tasks : list Task) :
  Forall (fun t => task_weight_feature_name t = None) tasks ->
  exists losses, build_task_losses features labels tasks = inr losses.
Proof.
  induction 1 as [|t rest Ht _ [losses IH]]; simpl; [eauto|].
  unfold resolve_weight. rewrite Ht, IH. eauto.
Qed.

(** Task specifications without weights give tasks without weights. *)
Lemma unweighted_tasks_of_specs (specs : list TaskSpec) :
  Forall (fun t => weight_feature_name t = None) specs ->
  Forall (fun t => task_weight_feature_name t = None) (map task_of_spec specs).
Proof.
  induction 1; simpl; constructor; assumption.
Qed.

(** C7.  A build that returns a model (every build of tasks without
    weights does) returns the loss [None] in [PREDICT] mode and a loss
    that is not [None] in [TRAIN] and [EVAL] mode, whatever the merge
    setting of the specification. *)
Theorem loss_is_none_exactly_in_predict (spec : PhoenixSpec)
    (features : gmap string Tensor) (labels : Labels)
    (learning_rate_spec : gmap string Float) (mode : Mode) :
  let built := create_model_spec spec features labels learning_rate_spec mode in
  (Forall (fun t => weight_feature_name t = None) (multi_task_spec spec) ->
   exists model, built = inr model)
  /\ (forall model, built = inr model ->
        (mode = PREDICT -> loss model = None)
        /\ (mode = TRAIN \/ mode = EVAL -> loss model ≠ None)).
Proof.
  intros built. split.
  - intros Hunweighted. subst built. unfold create_model_spec.
    destruct (build_task_losses_unweighted features labels (tasks_of spec))
      as [losses ->]; [|eauto].
    unfold tasks_of. destruct (multi_task_spec spec) as [|s rest] eqn:Hspecs.
    + repeat constructor.
    + apply unweighted_tasks_of_specs. exact Hunweighted.
  - intros model Hbuilt.
    apply create_model_spec_inr in Hbuilt as (_ & _ & losses & _ & ->).
    split.
    + intros ->. reflexivity.
    + intros [-> | ->]; discriminate.
Qed.


(** Reading the labels is reading their dictionary. *)
Lemma labels_getitem_dict (labels : Labels) (key : string) :
  labels_getitem labels key = py_getitem (labels_dict labels) key.
Proof.
  destruct labels; simpl; [|reflexivity].
  unfold py_getitem. rewrite lookup_empty. reflexivity.
Qed.

(** What [resolve_weight] does for a task with a weight: the lookup in the
    mapping its flag selects. *)
Lemma resolve_weight_configured (features : gmap string Tensor)
    (labels : Labels) (t : Task) (key : string) :
  task_weight_feature_name t = Some key ->
  resolve_weight features labels t
  = match (if task_weight_is_a_feature t then features
           else labels_dict labels) !! key with
    | Some w => inr (Some w)
    | None => inl (KeyError key)
    end.
Proof.
  intros Hkey. unfold resolve_weight. rewrite Hkey, labels_getitem_dict.
  unfold py_getitem.
  destruct (task_weight_is_a_feature t);
    match goal with |- context [?m !! key] => destruct (m !! key) end;
    reflexivity.
Qed.

(** One weight that cannot be resolved fails the build with the
    [KeyError] of the first such task. *)
Lemma build_task_losses_fails (features : gmap string Tensor)
    (labels : Labels) (tasks : list Task) (t : Task) (e : Exception) :
  t ∈ tasks ->
  resolve_weight features labels t = inl e ->
  exists t' key,
    t' ∈ tasks
    /\ resolve_weight features labels t' = inl (KeyError key)
    /\ build_task_losses features labels tasks = inl (KeyError key).
Proof.
  induction tasks as [|t0 rest IH]; intros Hin Hfail; [inversion Hin|].
  simpl.
  destruct (resolve_weight features labels t0) as [e0|w0] eqn:H0.
  - assert (exists key, e0 = KeyError key) as [key ->].
    { unfold resolve_weight in H0.
      destruct (task_weight_feature_name t0) as [key|]; [|discriminate].
      destruct (task_weight_is_a_feature t0);
        [|rewrite labels_getitem_dict in H0];
        unfold py_getitem in H0;
        match type of H0 with context [?m !! key] => destruct (m !! key) end;
        simplify_eq; eauto. }
    exists t0, key. split; [left|auto].
  - apply elem_of_cons in Hin as [->|Hin]; [congruence|].
    destruct (IH Hin Hfail) as (t' & key & Hin' & Hres & ->).
    exists t', key. split; [right; exact Hin'|auto].
Qed.

(** A build that succeeded resolved the weight of every task. *)
Lemma build_task_losses_lookup (features : gmap string Tensor)
    (labels : Labels) (tasks : list Task) (losses : list TaskLoss)
    (i : nat) (t : Task) :
  build_task_losses features labels tasks = inr losses ->
  tasks !! i = Some t ->
  exists w, resolve_weight features labels t = inr w
            /\ losses !! i = Some {| loss_label := task_label t; loss_weight := w |}.
Proof.
  revert losses i. induction tasks as [|t0 rest IH]; intros losses i; simpl.
  - intros _ Hi. discriminate Hi.
  - destruct (resolve_weight features labels t0) as [e0|w0] eqn:H0; [discriminate|].
    destruct (build_task_losses features labels rest) as [e|ls]; [discriminate|].
    intros [= <-]. destruct i as [|i]; simpl.
    + intros [= <-]. eauto.
    + intros Hi. apply (IH ls i eq_refl Hi).
Qed.

(** The task of the [i]-th entry of [multi_task_spec]. *)
Lemma tasks_of_lookup (spec : PhoenixSpec) (i : nat) (t : TaskSpec) :
  multi_task_spec spec !! i = Some t ->
  tasks_of spec !! i = Some (task_of_spec t).
Proof.
  unfold tasks_of. destruct (multi_task_spec spec) as [|s rest] eqn:Hspecs.
  - discriminate.
  - intros Hi.
    change (map task_of_spec (s :: rest)) with (task_of_spec <$> (s :: rest)).
    rewrite list_lookup_fmap, Hi. reflexivity.
Qed.

(** The weight lookup of the build proper: a key the expected dictionary
    lacks is a [KeyError], and a build that returns took the weight from
    that dictionary. *)
Lemma weight_lookup_of_the_build (spec : PhoenixSpec)
    (features : gmap string Tensor) (labels : Labels)
    (learning_rate_spec : gmap string Float) (mode : Mode)
    (i : nat) (t : TaskSpec) (key : string) :
  let built := create_model_spec spec features labels learning_rate_spec mode in
  let expected :=
    if weight_is_a_feature t then features else labels_dict labels in
  multi_task_spec spec !! i = Some t ->
  weight_feature_name t = Some key ->
  (expected !! key = None -> exists missing, built = inl (KeyError missing))
  /\ (forall model, built = inr model ->
        exists w, expected !! key = Some w
                  /\ forall l, loss model = Some l ->
                       task_losses l !! i
                       = Some {| loss_label := Some (label_name t);
                                 loss_weight := Some w |}).
Proof.
  intros built expected Hi Hkey.
  apply tasks_of_lookup in Hi as Htask.
  assert (Hres : resolve_weight features labels (task_of_spec t)
                 = match expected !! key with
                   | Some w => inr (Some w)
                   | None => inl (KeyError key)
                   end)
    by (apply resolve_weight_configured; exact Hkey).
  split.
  - intros Hmissing. rewrite Hmissing in Hres.
    destruct (build_task_losses_fails features labels (tasks_of spec)
                (task_of_spec t) (KeyError key))
      as (t' & missing & _ & _ & Hfail);
      [apply list_elem_of_lookup; eauto|exact Hres|].
    exists missing. subst built. unfold create_model_spec.
    rewrite Hfail. reflexivity.
  - intros model Hbuilt.
    apply create_model_spec_inr in Hbuilt as (_ & _ & losses & Hlosses & Hloss).
    destruct (build_task_losses_lookup _ _ _ _ _ _ Hlosses Htask)
      as (w & Hw & Hat).
    rewrite Hres in Hw.
    destruct (expected !! key) as [w'|]; [|discriminate].
    injection Hw as <-. exists w'. split; [reflexivity|].
    intros l Hl. rewrite Hloss in Hl.
    destruct mode; simplify_eq; exact Hat.
Qed.

(** C9, once the assertion on the labels has passed.  For a task with a
    [weight_feature_name], the weight is looked up in the features when
    [weight_is_a_feature] and in the labels otherwise: when that dictionary
    lacks the key the build raises [KeyError], whatever the other dictionary
    holds, and a build that returns took the task's weight from that
    dictionary.  Labels that fail the assertion fail the build with
    [AssertionError] before any weight is looked up. *)
Theorem weight_looked_up_where_configured
    (labels_assertion : PhoenixSpec -> Labels -> bool) (spec : PhoenixSpec)
    (features : gmap string Tensor) (labels : Labels)
    (learning_rate_spec : gmap string Float) (mode : Mode)
    (i : nat) (t : TaskSpec) (key : string) :
  let built :=
    create_model_spec_asserting labels_assertion spec features labels
      learning_rate_spec mode in
  let expected :=
    if weight_is_a_feature t then features else labels_dict labels in
  multi_task_spec spec !! i = Some t ->
  weight_feature_name t = Some key ->
  (labels_assertion spec labels = false -> built = inl AssertionError)
  /\ (labels_assertion spec labels = true ->
      expected !! key = None ->
      exists missing, built = inl (KeyError missing))
  /\ (forall model, built = inr model ->
        exists w, expected !! key = Some w
                  /\ forall l, loss model = Some l ->
                       task_losses l !! i
                       = Some {| loss_label := Some (label_name t);
                                 loss_weight := Some w |}).
Proof.
  intros built expected Hi Hkey. subst built.
  unfold create_model_spec_asserting.
  destruct (weight_lookup_of_the_build spec features labels
              learning_rate_spec mode i t key Hi Hkey) as [Hmissing Hbuilt].
  destruct (labels_assertion spec labels).
  - split; [discriminate|]. split; [intros _; exact Hmissing|exact Hbuilt].
  - split; [reflexivity|]. split; discriminate.
Qed.

End TaskManagerFacts.

Section TaskManagerRuns.
Import TaskManager.

(** The three cases of [test_learning_spec]. *)
Example model_passes_test_learning_spec :
  passes (test_learning_spec "l2_weight_loss"
            ["clip_by_global_norm"; "ExponentialDecay"])
    (create_model_spec single_task_spec test_features (LabelTensor 1) l2_reg TRAIN)
  && passes (test_learning_spec "clip_by_global_norm"
               ["l2_weight_loss"; "ExponentialDecay"])
       (create_model_spec single_task_spec test_features (LabelTensor 1) clipping TRAIN)
  && passes (test_learning_spec "ExponentialDecay"
               ["l2_weight_loss"; "clip_by_global_norm"])
       (create_model_spec single_task_spec test_features (LabelTensor 1) decay TRAIN)
  = true.
Proof. vm_compute. reflexivity. Qed.

(** The three cases of [test_learning_spec_on_eval]. *)
Example model_passes_test_learning_spec_on_eval :
  forallb (fun learning_rate_spec =>
             passes (test_learning_spec_on_eval
                       ["l2_weight_loss"; "clip_by_global_norm"; "ExponentialDecay"])
               (create_model_spec single_task_spec test_features
                  (LabelTensor 1) learning_rate_spec EVAL))
    [l2_reg; clipping; decay]
  = true.
Proof. vm_compute. reflexivity. Qed.

(** The three cases of [test_learning_spec_on_predict]. *)
Example model_passes_test_learning_spec_on_predict :
  forallb (fun learning_rate_spec =>
             passes (test_learning_spec_on_predict
                       ["l2_weight_loss"; "clip_by_global_norm"; "ExponentialDecay"])
               (create_model_spec single_task_spec test_features
                  (LabelTensor 1) learning_rate_spec PREDICT))
    [l2_reg; clipping; decay]
  = true.
Proof. vm_compute. reflexivity. Qed.

(** The assertions of [test_multitask] on the predictions, with merged
    losses and without. *)
Example model_passes_test_multitask :
  forallb (fun '(learning_rate_spec, merge_losses) =>
             passes test_multitask_predictions
               (create_model_spec (test_multitask_spec merge_losses)
                  test_features (LabelDict test_label_dict)
                  learning_rate_spec TRAIN))
    [(l2_reg, false); (clipping, false); (decay, false);
     (l2_reg, true); (clipping, true); (decay, true)]
  = true.
Proof. vm_compute. reflexivity. Qed.

(** [test_weight_feature] builds, [test_wrong_dict_weight_feature] raises
    [KeyError]. *)
Example model_passes_test_weight_feature :
  (exists model,
     create_model_spec (weighted_spec true) (test_features ∪ test_weights)
       (LabelDict test_label_dict) clipping TRAIN = inr model)
  /\ (exists model,
        create_model_spec (weighted_spec false) test_features
          (LabelDict (test_label_dict ∪ test_weights)) clipping TRAIN
        = inr model)
  /\ create_model_spec (weighted_spec false) (test_features ∪ test_weights)
       (LabelDict (test_label_dict ∪ {[ "not_used" := 1; "not_used2" := 1 ]}))
       clipping TRAIN
     = inl (KeyError "weight1")
  /\ create_model_spec (weighted_spec true) test_features
       (LabelDict test_label_dict) clipping TRAIN
     = inl (KeyError "weight1").
Proof.
  split; [eexists; vm_compute; reflexivity|].
  split; [eexists; vm_compute; reflexivity|].
  split; vm_compute; reflexivity.
Qed.

(** C1 as it is stated fails on the model of [test_multitask]: two tasks
    give the nine entries the test asserts, not six, and the plain keys
    are among them. *)
Lemma section_3_invariant_fails_for_two_tasks :
  exists model,
    create_model_spec (test_multitask_spec false) test_features
      (LabelDict test_label_dict) l2_reg TRAIN = inr model
    /\ test_multitask_predictions model = true
    /\ ~ predictions_invariant_of_section_3 (test_multitask_spec false) model.
Proof.
  eexists. split; [vm_compute; reflexivity|].
  split; [vm_compute; reflexivity|].
  intros [Hsize _]. vm_compute in Hsize. discriminate Hsize.
Qed.


(** Two tasks give nine predictions. *)
Lemma predictions_cardinality_two_tasks :
  exists model,
    create_model_spec (test_multitask_spec true) test_features
      (LabelDict test_label_dict) decay EVAL = inr model
    /\ size (predictions model) = 9%nat.
Proof.
  eexists. split; [vm_compute; reflexivity|].
  apply (predictions_cardinality (test_multitask_spec true) test_features
           (LabelDict test_label_dict) decay EVAL);
    [vm_compute; reflexivity | apply (bool_decide_unpack _); vm_compute; exact I | simpl; lia].
Defined.

(** [gradient_max_norm] alone: clipping is in the graph, L2 is not. *)
Lemma clipping_alone_in_training :
  exists model,
    create_model_spec single_task_spec test_features (LabelTensor 1)
      clipping TRAIN = inr model
    /\ (exists n, n ∈ graph model /\ node_transform n = ClipByGlobalNorm)
    /\ ~ (exists n, n ∈ graph model /\ node_transform n = L2WeightLoss).
Proof.
  eexists. split; [vm_compute; reflexivity|].
  destruct (triggered_transforms_in_training single_task_spec test_features
              (LabelTensor 1) clipping _ eq_refl) as (Hl2 & Hclip & _).
  split.
  - apply Hclip. exists (3 # 1)%Q. split; [reflexivity|].
    intros Hzero. discriminate Hzero.
  - intros Hpresent. apply Hl2 in Hpresent as (value & Hvalue & _).
    vm_compute in Hvalue. discriminate Hvalue.
Defined.

(** The single task in [PREDICT] mode has no loss. *)
Lemma loss_of_the_single_task_in_predict :
  exists model,
    create_model_spec single_task_spec test_features (LabelTensor 1)
      l2_reg PREDICT = inr model
    /\ loss model = None.
Proof.
  destruct (loss_is_none_exactly_in_predict single_task_spec test_features
              (LabelTensor 1) l2_reg PREDICT) as [Hbuilds Hloss].
  destruct Hbuilds as [model Hmodel]; [constructor|].
  exists model. split; [exact Hmodel|].
  apply (Hloss model Hmodel). reflexivity.
Defined.

(** [test_wrong_dict_weight_feature]: the weights are in the features, the
    tasks expect them in the labels. *)
Lemma weight_in_the_wrong_dictionary :
  exists missing,
    create_model_spec_asserting labels_size_assertion (weighted_spec false)
      (test_features ∪ test_weights)
      (LabelDict (test_label_dict ∪ {[ "not_used" := 1; "not_used2" := 1 ]}))
      clipping TRAIN
    = inl (KeyError missing).
Proof.
  apply (weight_looked_up_where_configured labels_size_assertion
           (weighted_spec false) (test_features ∪ test_weights)
           (LabelDict (test_label_dict ∪ {[ "not_used" := 1; "not_used2" := 1 ]}))
           clipping TRAIN 1%nat
           {| label_name := "label2"; number_of_classes := 10;
              weight_feature_name := Some "weight2";
              weight_is_a_feature := false |}
           "weight2");
    reflexivity.
Defined.

(** C9 as it is stated fails on the labels that
    [test_wrong_dict_weight_feature] does not pad: the weights are in the
    features, the tasks expect them in the labels, and the two labels fail
    the assertion before any key is missed. *)
Lemma unpadded_labels_fail_the_assertion :
  ~ missing_weight_rule_unasserted labels_size_assertion (weighted_spec false)
      (test_features ∪ test_weights) (LabelDict test_label_dict)
      clipping TRAIN.
Proof.
  intros Hrule.
  destruct (Hrule 0%nat
              {| label_name := "label1"; number_of_classes := 10;
                 weight_feature_name := Some "weight1";
                 weight_is_a_feature := false |}
              "weight1" eq_refl eq_refl eq_refl) as [missing Hraised].
  vm_compute in Hraised. discriminate Hraised.
Qed.

(** The padded and the unpadded labels of [test_wrong_dict_weight_feature],
    and the labels of [test_weight_feature], under the assertion. *)
Example model_passes_test_wrong_dict_weight_feature :
  create_model_spec_asserting labels_size_assertion (weighted_spec false)
    (test_features ∪ test_weights)
    (LabelDict (test_label_dict ∪ {[ "not_used" := 1; "not_used2" := 1 ]}))
    clipping TRAIN
  = inl (KeyError "weight1")
  /\ create_model_spec_asserting labels_size_assertion (weighted_spec true)
       test_features (LabelDict test_label_dict) clipping TRAIN
     = inl (KeyError "weight1")
  /\ create_model_spec_asserting labels_size_assertion (weighted_spec false)
       (test_features ∪ test_weights) (LabelDict test_label_dict)
       clipping TRAIN
     = inl AssertionError
  /\ (exists model,
        create_model_spec_asserting labels_size_assertion
          (weighted_spec false) test_features
          (LabelDict (test_label_dict ∪ test_weights)) clipping TRAIN
        = inr model).
Proof.
  repeat split; try (vm_compute; reflexivity).
  eexists. vm_compute. reflexivity.
Qed.

(** A field that is present with its default triggers nothing:
    [l2_regularization = 0] leaves no L2 node and no L2 term. *)
Example default_l2_leaves_no_node :
  match create_model_spec single_task_spec test_features (LabelTensor 1)
          {[ "learning_rate" := (1 # 1000)%Q;
             "l2_regularization" := (0 # 1)%Q ]} TRAIN with
  | inr model =>
      graph model = []
      /\ loss model
         = Some {| task_losses := [ {| loss_label := None;
                                       loss_weight := None |} ];
                   l2_term := None |}
  | inl _ => False
  end.
Proof. vm_compute. split; reflexivity. Qed.

End TaskManagerRuns.

(** * The search candidate generator: every way a call ends *)

Section GeneratorOutcomes.
Import Generator.
Context `{Collaborators}.

(** Every call ends in one of the five ways of [Outcome]. *)
Lemma first_time_chief_generate_outcome (spec : PhoenixSpec)
    (trial_mode : TrialMode) (logits_dimension : Z) (hparams : HParams)
    (run_config : RunConfig) (is_training : bool) (trials : list Trial) :
  Outcome spec logits_dimension hparams run_config is_training trials
    (run (first_time_chief_generate spec trial_mode logits_dimension hparams
            run_config is_training trials)).
Proof.
  assert (Hsearch : forall relevant,
            relevant `sublist_of` trials ->
            Outcome spec logits_dimension hparams run_config is_training trials
              (_suggest_and_create_architecture
                 (fun arch prev_trial =>
                    _create_new_architecture spec arch run_config
                      (get_trial_id (model_dir run_config) spec) is_training
                      hparams logits_dimension
                      (hparams_attributes hparams !! "dropout_rate")
                      prev_trial trials)
                 relevant hparams (get_trial_id (model_dir run_config) spec)
                 run_config [])).
  { intros relevant Hsub. rewrite run_suggest_and_create.
    destruct (get_suggestion relevant hparams _ (model_dir run_config))
      as [arch prev_trial] eqn:Hsuggested.
    apply (Searched _ _ _ _ _ _ relevant arch prev_trial Hsub Hsuggested). }
  unfold first_time_chief_generate, run.
  case_decide as Hid.
  - unfold mbind, M_bind, bind, lift.
    destruct (_get_user_suggestion spec _) as [e|arch] eqn:Hsugg.
    + constructor.
    + rewrite run_create_new_architecture.
      apply (Suggested _ _ _ _ _ _ arch Hsugg).
  - case_decide as Hmode.
    + destruct (is_nonadaptive_ensemble_search _); [constructor|].
      destruct (_ || _).
      { apply Hsearch. case_decide; [apply sublist_filter|reflexivity]. }
      destruct (is_intermixed_ensemble_search _); [|constructor].
      case_decide; [constructor|].
      case_decide; [constructor|].
      apply Hsearch. apply sublist_filter.
    + unfold mbind, M_bind, bind.
      destruct (bool_decide (trial_mode = DISTILLATION) && _).
      * destruct (get_best_k _) as [best|].
        -- case_decide; constructor.
        -- apply Hsearch. reflexivity.
      * apply Hsearch. reflexivity.
Qed.


(** Case analysis on the way the call of the goal ends. *)
Ltac by_outcome Hout :=
  match goal with
  | |- context [run (first_time_chief_generate ?spec ?mode ?ld ?hp ?rc ?tr ?ts)] =>
      pose proof (first_time_chief_generate_outcome spec mode ld hp rc tr ts)
        as Hout;
      destruct (run (first_time_chief_generate spec mode ld hp rc tr ts))
        as [log result];
      inversion Hout; subst; clear Hout; simpl
  end.

(** X2.  A call that returns has registered a number of towers exactly
    once, for this generator, and the number is the number of towers it
    returns, which is 0 or 1. *)
Theorem towers_registered_match_returned (spec : PhoenixSpec)
    (trial_mode : TrialMode) (logits_dimension : Z) (hparams : HParams)
    (run_config : RunConfig) (is_training : bool) (trials : list Trial)
    (g : Generated) :
  let outcome :=
    run (first_time_chief_generate spec trial_mode logits_dimension hparams
           run_config is_training trials) in
  outcome.2 = inr g ->
  registered_towers outcome.1
  = [(generator_name, Z.of_nat (length (towers_of g)))]
  /\ (length (towers_of g) <= 1)%nat.
Proof.
  intros outcome. subst outcome. by_outcome Hout; intros Hg; simplify_eq;
    try (split; [reflexivity|simpl; lia]).
  destruct (_ && _); simpl; (split; [reflexivity|lia]).
Qed.

(** X3.  An exception of the generator's own code (a lookup, an index, a
    division, the assertion, the unknown search type) is raised before
    anything is saved, registered, initialised or asked: the log is
    empty. *)
Theorem own_exceptions_precede_effects (spec : PhoenixSpec)
    (trial_mode : TrialMode) (logits_dimension : Z) (hparams : HParams)
    (run_config : RunConfig) (is_training : bool) (trials : list Trial)
    (e : Exception) :
  let outcome :=
    run (first_time_chief_generate spec trial_mode logits_dimension hparams
           run_config is_training trials) in
  outcome.2 = inl e -> outcome.1 = [].
Proof.
  intros outcome. subst outcome. by_outcome Hout; intros He; simplify_eq.
  reflexivity.
Qed.

(** X4.  The search algorithm is asked at most once per call, and only
    about trials of the history it was given, in their order. *)
Theorem search_asked_at_most_once_about_history (spec : PhoenixSpec)
    (trial_mode : TrialMode) (logits_dimension : Z) (hparams : HParams)
    (run_config : RunConfig) (is_training : bool) (trials : list Trial) :
  let log :=
    (run (first_time_chief_generate spec trial_mode logits_dimension hparams
            run_config is_training trials)).1 in
  (length (searched_over log) <= 1)%nat
  /\ forall relevant, relevant ∈ searched_over log ->
                      relevant `sublist_of` trials.
Proof.
  intros log. subst log. by_outcome Hout;
    try (split; [lia|intros relevant Hin; inversion Hin]).
  match goal with
  | |- context [searched_over (?init ++ ?last)] =>
      replace (searched_over (init ++ last)) with (@nil (list Trial))
        by (destruct (_ && _); reflexivity)
  end.
  split; [simpl; lia|].
  intros r Hin. apply list_elem_of_singleton in Hin as ->. assumption.
Qed.

(** X5.  Every tower returned, new or loaded, is named
    [search_generator_0], lives in the directory of the current trial and
    is not frozen. *)
Theorem returned_tower_shape (spec : PhoenixSpec)
    (trial_mode : TrialMode) (logits_dimension : Z) (hparams : HParams)
    (run_config : RunConfig) (is_training : bool) (trials : list Trial)
    (g : Generated) (t : Tower) :
  (run (first_time_chief_generate spec trial_mode logits_dimension hparams
          run_config is_training trials)).2 = inr g ->
  t ∈ towers_of g ->
  tower_name_of t = "search_generator_0"
  /\ tower_directory t = model_dir run_config
  /\ tower_frozen t = false.
Proof.
  by_outcome Hout; intros Hg Hin; simplify_eq; simpl in Hin;
    try (inversion Hin; fail);
    apply list_elem_of_singleton in Hin as ->; auto.
Qed.

(** X6.  The architectures saved by a call that returns are exactly those
    of the new towers it returns, under the directory and the id of the
    current trial; a loaded tower saves none. *)
Theorem new_towers_are_saved (spec : PhoenixSpec)
    (trial_mode : TrialMode) (logits_dimension : Z) (hparams : HParams)
    (run_config : RunConfig) (is_training : bool) (trials : list Trial)
    (g : Generated) :
  let outcome :=
    run (first_time_chief_generate spec trial_mode logits_dimension hparams
           run_config is_training trials) in
  outcome.2 = inr g ->
  saved_architectures outcome.1
  = (fun arch => (arch, model_dir run_config,
                  get_trial_id (model_dir run_config) spec))
      <$> omap tower_architecture_of (towers_of g).
Proof.
  intros outcome. subst outcome. by_outcome Hout; intros Hg; simplify_eq;
    try reflexivity.
  destruct (_ && _); reflexivity.
Qed.

(** X7.  Variables are initialised from a checkpoint only when the
    transfer learning type is the snapshot one and the search algorithm,
    asked in this call, named a parent trial with a positive id; the trial
    is the one [_get_trial_from_id] finds for that id.  A user suggestion
    or a loaded tower never takes a snapshot. *)
Theorem snapshot_only_from_positive_parent (spec : PhoenixSpec)
    (trial_mode : TrialMode) (logits_dimension : Z) (hparams : HParams)
    (run_config : RunConfig) (is_training : bool) (trials : list Trial)
    (source : option Trial) :
  let log :=
    (run (first_time_chief_generate spec trial_mode logits_dimension hparams
            run_config is_training trials)).1 in
  source ∈ initialised_from log ->
  transfer_learning_type spec = SNAPSHOT_TRANSFER_LEARNING
  /\ exists relevant parent,
       searched_over log = [relevant]
       /\ (get_suggestion relevant hparams
             (get_trial_id (model_dir run_config) spec)
             (model_dir run_config)).2 = Some parent
       /\ 0 < parent
       /\ source = _get_trial_from_id parent trials.
Proof.
  intros log. subst log. by_outcome Hout; intros Hin;
    try (inversion Hin; fail).
  destruct (prev_trial_is_positive prev_trial) eqn:Hpos; simpl in Hin;
    [|inversion Hin].
  case_bool_decide as Hsnap; simpl in Hin; [|inversion Hin].
  apply list_elem_of_singleton in Hin as ->.
  split; [exact Hsnap|].
  destruct prev_trial as [parent|]; [|discriminate Hpos].
  simpl in Hpos. apply andb_true_iff in Hpos as [_ Hpos].
  apply bool_decide_eq_true in Hpos.
  exists relevant, parent.
  match goal with
  | Hs : get_suggestion _ _ _ _ = _ |- _ => rewrite Hs
  end.
  simpl. auto.
Qed.

End GeneratorOutcomes.

(** * The search candidate generator: edges *)

Section GeneratorEdges.
Import Generator.
Context `{Collaborators}.

(** Steps over the user-suggestion test of a trial past the suggestions. *)
Ltac past_suggestions Hid :=
  unfold first_time_chief_generate, run;
  rewrite (decide_False (P := _ <= Z.of_nat _)) by (clear -Hid; lia).

(** X1.  [_get_trial_from_id] returns the first trial of the list with the
    id, and [None] exactly when no trial has it. *)
Theorem get_trial_from_id_first (id : Z) (trials : list Trial) :
  (forall t, _get_trial_from_id id trials = Some t
             <-> exists before after,
                   trials = before ++ t :: after
                   /\ trial_id t = id
                   /\ Forall (fun u => trial_id u ≠ id) before)
  /\ (_get_trial_from_id id trials = None
      <-> Forall (fun u => trial_id u ≠ id) trials).
Proof.
  induction trials as [|u rest [IHsome IHnone]]; simpl.
  - split.
    + intros t. split; [discriminate|].
      intros (before & after & Heq & _). destruct before; discriminate Heq.
    + split; [constructor|reflexivity].
  - case_decide as Hu.
    + split.
      * intros t. split.
        -- intros [= <-]. exists [], rest. auto.
        -- intros (before & after & Heq & Ht & Hbefore).
           destruct before as [|b before]; simpl in Heq.
           ++ congruence.
           ++ injection Heq as <- _. apply Forall_cons in Hbefore as [Hb _].
              congruence.
      * split; [discriminate|].
        intros Hall. apply Forall_cons in Hall as [Hne _]. congruence.
    + split.
      * intros t. rewrite IHsome. split.
        -- intros (before & after & -> & Ht & Hbefore).
           exists (u :: before), after. repeat split; auto.
        -- intros (before & after & Heq & Ht & Hbefore).
           destruct before as [|b before]; simpl in Heq.
           ++ congruence.
           ++ injection Heq as <- ->. apply Forall_cons in Hbefore as [_ Hbefore].
              eauto.
      * rewrite IHnone. split.
        -- intros Hall. constructor; assumption.
        -- intros Hall. apply Forall_cons in Hall as [_ Hall]. exact Hall.
Qed.

(** A negative index within the list reads from the end. *)
Lemma py_index_negative {A : Type} (l : list A) (i : Z) :
  - Z.of_nat (length l) <= i < 0 ->
  py_index l i = py_index l (Z.of_nat (length l) + i).
Proof.
  intros Hi. unfold py_index. cbv zeta.
  rewrite (decide_True (P := i < 0)) by lia.
  rewrite (decide_False (P := Z.of_nat (length l) + i < 0)) by lia.
  reflexivity.
Qed.

(** [IndexError] exactly outside of [-len, len). *)
Lemma py_index_out_of_range {A : Type} (l : list A) (i : Z) :
  py_index l i = inl IndexError
  <-> i < - Z.of_nat (length l) \/ Z.of_nat (length l) <= i.
Proof.
  unfold py_index. cbv zeta. split.
  - intros Hraise. repeat case_decide; try lia.
    all: match type of Hraise with
         | context [?m !! ?k] => destruct (m !! k) eqn:E; [discriminate|]
         end; apply lookup_ge_None in E; lia.
  - intros Hout. repeat case_decide; try reflexivity; lia.
Qed.

(** Decoding names fails with a [KeyError] only. *)
Lemma block_types_of_names_error (names : list string) (e : Exception) :
  block_types_of_names names = inl e ->
  exists name, e = KeyError name.
Proof.
  induction names as [|name rest IH]; simpl; [discriminate|].
  unfold py_getitem.
  destruct (block_types !! name); [|intros [= <-]; eauto].
  destruct (block_types_of_names rest) as [e'|bs]; [|discriminate].
  intros [= <-]. apply IH. reflexivity.
Qed.

(** The first name that is no member is the one reported. *)
Lemma block_types_of_names_first_unknown (before after : list string)
    (name : string) :
  Forall (fun n => is_Some (block_types !! n)) before ->
  block_types !! name = None ->
  block_types_of_names (before ++ name :: after) = inl (KeyError name).
Proof.
  intros Hbefore Hname.
  induction Hbefore as [|n before [b Hb] _ IH]; simpl; unfold py_getitem.
  - rewrite Hname. reflexivity.
  - rewrite Hb, IH. reflexivity.
Qed.

(** [_get_user_suggestion] raises [IndexError] exactly for an id out of
    [1 - n, n]. *)
Lemma user_suggestion_index_error (spec : PhoenixSpec) (trial_id : Z) :
  let n := Z.of_nat (length (user_suggestions spec)) in
  _get_user_suggestion spec trial_id = inl IndexError
  <-> trial_id < 1 - n \/ n < trial_id.
Proof.
  intros n. unfold _get_user_suggestion. split.
  - destruct (py_index (user_suggestions spec) (trial_id - 1)) as [e|s] eqn:Hidx.
    + intros [= ->]. apply py_index_out_of_range in Hidx. lia.
    + destruct (block_types_of_names (architecture s)) as [e|arch] eqn:Hnames;
        [|discriminate].
      intros [= ->]. apply block_types_of_names_error in Hnames as [name Hname].
      discriminate Hname.
  - intros Hout.
    assert (Hidx : py_index (user_suggestions spec) (trial_id - 1) = inl IndexError)
      by (apply py_index_out_of_range; lia).
    rewrite Hidx. reflexivity.
Qed.

(** An id from [1 - n] to 0 reads the suggestion of the id [n] above. *)
Lemma user_suggestion_counted_from_the_end (spec : PhoenixSpec) (trial_id : Z) :
  let n := Z.of_nat (length (user_suggestions spec)) in
  1 - n <= trial_id <= 0 ->
  _get_user_suggestion spec trial_id = _get_user_suggestion spec (trial_id + n).
Proof.
  intros n Hid. unfold _get_user_suggestion.
  rewrite py_index_negative by lia.
  replace (Z.of_nat (length (user_suggestions spec)) + (trial_id - 1))
    with (trial_id + n - 1) by lia.
  reflexivity.
Qed.


(** X9.  The test [my_id <= len(user_suggestions)] lets the ids below 1
    through, and the index [my_id - 1] is then negative: a trial with an
    id from [1 - n] to 0 is served the suggestion of the trial [my_id + n],
    counted from the end ([n] suggestions), saved under its own id. *)
Theorem nonpositive_id_served_from_the_end (spec : PhoenixSpec)
    (trial_mode : TrialMode) (logits_dimension : Z) (hparams : HParams)
    (run_config : RunConfig) (is_training : bool) (trials : list Trial)
    (arch : Architecture) :
  let my_id := get_trial_id (model_dir run_config) spec in
  let n := Z.of_nat (length (user_suggestions spec)) in
  1 - n <= my_id <= 0 ->
  _get_user_suggestion spec (my_id + n) = inr arch ->
  run (first_time_chief_generate spec trial_mode logits_dimension hparams
         run_config is_training trials)
  = ([SaveArchitecture arch (model_dir run_config) my_id;
      SetNumberOfTowers generator_name 1],
     inr (TowerList
            [new_tower spec arch is_training logits_dimension hparams
               run_config])).
Proof.
  intros my_id n Hid Harch.
  unfold first_time_chief_generate, run. fold my_id.
  rewrite decide_True by lia.
  unfold mbind, M_bind, bind, lift.
  rewrite user_suggestion_counted_from_the_end by (fold n; lia).
  fold n. rewrite Harch.
  rewrite run_create_new_architecture. reflexivity.
Qed.

(** X10.  A call raises [IndexError] exactly when the trial id is below
    [1 - n] for [n] user suggestions: the index [my_id - 1] is then out of
    the list.  No id above [n] raises it. *)
Theorem index_error_exactly_below_the_suggestions (spec : PhoenixSpec)
    (trial_mode : TrialMode) (logits_dimension : Z) (hparams : HParams)
    (run_config : RunConfig) (is_training : bool) (trials : list Trial) :
  (run (first_time_chief_generate spec trial_mode logits_dimension hparams
          run_config is_training trials)).2 = inl IndexError
  <-> get_trial_id (model_dir run_config) spec
      < 1 - Z.of_nat (length (user_suggestions spec)).
Proof.
  unfold first_time_chief_generate, run. split.
  - case_decide as Hid.
    + unfold mbind, M_bind, bind, lift.
      destruct (_get_user_suggestion spec _) as [e|arch] eqn:Hsugg.
      * simpl. intros [= ->].
        apply user_suggestion_index_error in Hsugg. lia.
      * rewrite run_create_new_architecture. discriminate.
    + intros Hraise. exfalso. revert Hraise.
      case_decide as Hmode.
      * destruct (is_nonadaptive_ensemble_search _); [discriminate|].
        destruct (_ || _); [rewrite run_suggest_and_create; discriminate|].
        destruct (is_intermixed_ensemble_search _); [|discriminate].
        case_decide; [discriminate|].
        case_decide; [discriminate|].
        rewrite run_suggest_and_create. discriminate.
      * unfold mbind, M_bind, bind.
        destruct (bool_decide (trial_mode = DISTILLATION) && _).
        -- destruct (get_best_k _) as [best|].
           ++ case_decide; discriminate.
           ++ simpl. rewrite run_suggest_and_create. discriminate.
        -- simpl. rewrite run_suggest_and_create. discriminate.
  - intros Hid.
    rewrite decide_True by lia.
    unfold mbind, M_bind, bind, lift.
    assert (Hraise : _get_user_suggestion spec
                       (get_trial_id (model_dir run_config) spec)
                     = inl IndexError)
      by (apply user_suggestion_index_error; lia).
    rewrite Hraise. reflexivity.
Qed.

(** X11.  A user suggestion that names a block which is no member of
    [BlockType] raises [KeyError] with the first such name, and nothing is
    saved or registered. *)
Theorem unknown_block_name_raises (spec : PhoenixSpec)
    (trial_mode : TrialMode) (logits_dimension : Z) (hparams : HParams)
    (run_config : RunConfig) (is_training : bool) (trials : list Trial)
    (suggestion : UserSuggestion) (before after : list string)
    (name : string) :
  let my_id := get_trial_id (model_dir run_config) spec in
  1 <= my_id ->
  user_suggestions spec !! Z.to_nat (my_id - 1) = Some suggestion ->
  architecture suggestion = before ++ name :: after ->
  Forall (fun n => is_Some (block_types !! n)) before ->
  block_types !! name = None ->
  run (first_time_chief_generate spec trial_mode logits_dimension hparams
         run_config is_training trials)
  = ([], inl (KeyError name)).
Proof.
  intros my_id Hid Hsugg Harch Hbefore Hname.
  pose proof (lookup_lt_Some _ _ _ Hsugg) as Hlt.
  unfold first_time_chief_generate, run. fold my_id.
  rewrite decide_True by lia.
  unfold mbind, M_bind, bind, lift, _get_user_suggestion.
  rewrite (py_index_nonneg _ _ suggestion) by (assumption || lia).
  rewrite Harch, block_types_of_names_first_unknown by assumption.
  reflexivity.
Qed.

(** X12.  Past the user suggestions, a trial without prior and a
    distillation trial whose ensembling is not intermixed ask the search
    algorithm about the whole history and return the tower of its
    suggestion. *)
Theorem fallthrough_searches_whole_history (spec : PhoenixSpec)
    (trial_mode : TrialMode) (logits_dimension : Z) (hparams : HParams)
    (run_config : RunConfig) (is_training : bool) (trials : list Trial) :
  let my_id := get_trial_id (model_dir run_config) spec in
  let outcome :=
    run (first_time_chief_generate spec trial_mode logits_dimension hparams
           run_config is_training trials) in
  Z.of_nat (length (user_suggestions spec)) < my_id ->
  trial_mode = NO_PRIOR
  \/ (trial_mode = DISTILLATION
      /\ ensemble_search_type (ensemble_spec spec)
         ≠ INTERMIXED_NONADAPTIVE_ENSEMBLE_SEARCH) ->
  searched_over outcome.1 = [trials]
  /\ outcome.2
     = inr (TowerList
              [new_tower spec
                 (get_suggestion trials hparams my_id (model_dir run_config)).1
                 is_training logits_dimension hparams run_config]).
Proof.
  intros my_id outcome Hid Hmode. subst outcome.
  past_suggestions Hid. fold my_id.
  rewrite (decide_False (P := trial_mode = ENSEMBLE_SEARCH))
    by (destruct Hmode as [-> | [-> _]]; discriminate).
  replace (bool_decide (trial_mode = DISTILLATION)
           && is_intermixed_ensemble_search (ensemble_spec spec))
    with false.
  - unfold mbind, M_bind, bind, mret, M_ret, ret.
    rewrite run_suggest_and_create. simpl. split; [|reflexivity].
    rewrite searched_over_app. simpl. destruct (_ && _); reflexivity.
  - destruct Hmode as [-> | [-> Htype]]; [reflexivity|].
    unfold is_intermixed_ensemble_search.
    rewrite (bool_decide_eq_false_2 _ Htype). reflexivity.
Qed.

(** X13.  How far the window of adaptive and residual ensemble search
    reaches, for a positive [increase_width_every]: every trial of the
    history with an id of at least [my_id] is relevant, none with an id of
    at most [my_id - every] is, and when [my_id] is a multiple of [every]
    the window starts at [my_id] itself. *)
Theorem adaptive_window_reach (spec : PhoenixSpec)
    (logits_dimension : Z) (hparams : HParams) (run_config : RunConfig)
    (is_training : bool) (trials : list Trial) :
  let my_id := get_trial_id (model_dir run_config) spec in
  let every := adaptive_search_increase_width_every (ensemble_spec spec) in
  let log :=
    (run (first_time_chief_generate spec ENSEMBLE_SEARCH logits_dimension
            hparams run_config is_training trials)).1 in
  ensemble_search_type (ensemble_spec spec) = ADAPTIVE_ENSEMBLE_SEARCH
  \/ ensemble_search_type (ensemble_spec spec) = RESIDUAL_ENSEMBLE_SEARCH ->
  0 < every ->
  Z.of_nat (length (user_suggestions spec)) < my_id ->
  exists relevant,
    searched_over log = [relevant]
    /\ forall t, t ∈ trials ->
         (my_id <= trial_id t -> t ∈ relevant)
         /\ (trial_id t <= my_id - every -> t ∉ relevant)
         /\ (my_id `mod` every = 0 -> (t ∈ relevant <-> my_id <= trial_id t)).
Proof.
  intros my_id every log Htype Hevery Hid.
  exists (filter (fun t => my_id `div` every * every <= trial_id t) trials).
  split.
  - subst log. past_suggestions Hid. fold my_id.
    rewrite decide_True by reflexivity.
    unfold is_nonadaptive_ensemble_search, is_adaptive_ensemble_search,
      is_residual_ensemble_search.
    replace (bool_decide (ensemble_search_type (ensemble_spec spec)
                          = NONADAPTIVE_ENSEMBLE_SEARCH)) with false
      by (destruct Htype as [-> | ->]; reflexivity).
    replace (bool_decide (ensemble_search_type (ensemble_spec spec)
                          = ADAPTIVE_ENSEMBLE_SEARCH)
             || bool_decide (ensemble_search_type (ensemble_spec spec)
                             = RESIDUAL_ENSEMBLE_SEARCH)) with true
      by (destruct Htype as [-> | ->]; reflexivity).
    fold every. rewrite (decide_True (P := every ≠ 0)) by lia.
    rewrite run_suggest_and_create. simpl.
    rewrite searched_over_app. simpl. destruct (_ && _); reflexivity.
  - intros t Ht.
    pose proof (Z.mod_pos_bound my_id every Hevery) as Hmod.
    pose proof (Z.div_mod my_id every ltac:(lia)) as Hdiv.
    assert (Hbound : my_id `div` every * every = my_id - my_id `mod` every)
      by lia.
    rewrite list_elem_of_filter, Hbound.
    split; [|split].
    + intros Hge. split; [lia|exact Ht].
    + intros Hle [Hin _]. lia.
    + intros Hzero. rewrite Hzero. split; [intros [Hin _]; lia|].
      intros Hge. split; [lia|exact Ht].
Qed.

(** X8.  With snapshot transfer learning, when the search algorithm names
    a parent with a positive id that a trial of the history has, the
    variables are initialised once, from the first trial with that id. *)
Theorem snapshot_taken_from_parent (spec : PhoenixSpec)
    (trial_mode : TrialMode) (logits_dimension : Z) (hparams : HParams)
    (run_config : RunConfig) (is_training : bool) (trials : list Trial)
    (relevant : list Trial) (parent : Z) (source : Trial) :
  let my_id := get_trial_id (model_dir run_config) spec in
  let log :=
    (run (first_time_chief_generate spec trial_mode logits_dimension hparams
            run_config is_training trials)).1 in
  transfer_learning_type spec = SNAPSHOT_TRANSFER_LEARNING ->
  searched_over log = [relevant] ->
  (get_suggestion relevant hparams my_id (model_dir run_config)).2
    = Some parent ->
  0 < parent ->
  _get_trial_from_id parent trials = Some source ->
  initialised_from log = [Some source].
Proof.
  intros my_id log Hsnap Hsearched Hparent Hpos Hsource. subst log.
  revert Hsearched.
  pose proof (first_time_chief_generate_outcome spec trial_mode
                logits_dimension hparams run_config is_training trials) as Hout.
  destruct (run (first_time_chief_generate spec trial_mode logits_dimension
                   hparams run_config is_training trials)) as [log result].
  inversion Hout; subst; clear Hout; simpl; try discriminate.
  rewrite searched_over_app.
  match goal with
  | Hs : get_suggestion ?r _ _ _ = _ |- _ => rename Hs into Hsuggested
  end.
  intros Hsearched.
  assert (relevant0 = relevant) as ->.
  { destruct (_ && _); simpl in Hsearched; congruence. }
  fold my_id in Hsuggested. rewrite Hsuggested in Hparent.
  simpl in Hparent. subst prev_trial. simpl.
  rewrite !bool_decide_eq_true_2 by (assumption || lia).
  simpl. rewrite Hsource. reflexivity.
Qed.

End GeneratorEdges.

Section GeneratorCoverageRuns.
Import Generator.

(** Closes a goal that evaluation decides. *)
Ltac computed :=
  vm_compute; repeat split; (reflexivity || (intros; discriminate)).

(** An exploitation trial registers the zero towers it returns. *)
Lemma exploitation_trial_registers_zero :
  registered_towers
    (run (first_time_chief_generate (H := example_collaborators)
            (example_spec INTERMIXED_NONADAPTIVE_ENSEMBLE_SEARCH 2)
            ENSEMBLE_SEARCH 10 example_hparams {| model_dir := "/tmp/4" |}
            true example_trials)).1
  = [("search_generator", 0)].
Proof.
  apply (towers_registered_match_returned (H := example_collaborators)
           (example_spec INTERMIXED_NONADAPTIVE_ENSEMBLE_SEARCH 2)
           ENSEMBLE_SEARCH 10 example_hparams {| model_dir := "/tmp/4" |}
           true example_trials EmptyPair).
  reflexivity.
Defined.

(** The unknown search type is refused before anything is logged. *)
Lemma unknown_type_leaves_no_trace :
  (run (first_time_chief_generate (H := example_collaborators)
          (example_spec NONE 0) ENSEMBLE_SEARCH 10 example_hparams
          {| model_dir := "/tmp/3" |} true example_trials)).1
  = [].
Proof.
  apply (own_exceptions_precede_effects (H := example_collaborators)
           (example_spec NONE 0) ENSEMBLE_SEARCH 10 example_hparams
           {| model_dir := "/tmp/3" |} true example_trials
           (ValueError "Unknown ensemble search type '0'")).
  reflexivity.
Defined.

(** The tower of the second suggestion. *)
Lemma suggested_tower_shape :
  let t :=
    new_tower (example_spec NONE 0) [2; 1] true 10 example_hparams
      {| model_dir := "/tmp/2" |} in
  tower_name_of t = "search_generator_0"
  /\ tower_directory t = "/tmp/2"
  /\ tower_frozen t = false.
Proof.
  apply (returned_tower_shape (H := example_collaborators)
           (example_spec NONE 0) NO_PRIOR 10 example_hparams
           {| model_dir := "/tmp/2" |} true example_trials
           (TowerList
              [new_tower (example_spec NONE 0) [2; 1] true 10 example_hparams
                 {| model_dir := "/tmp/2" |}])).
  - reflexivity.
  - simpl. apply list_elem_of_singleton. reflexivity.
Defined.

(** Loading the tower of trial 3 saves no architecture. *)
Lemma loaded_tower_saves_nothing :
  saved_architectures
    (run (first_time_chief_generate (H := example_collaborators)
            (example_spec INTERMIXED_NONADAPTIVE_ENSEMBLE_SEARCH 2)
            DISTILLATION 10 example_hparams {| model_dir := "/tmp/4" |} true
            example_trials)).1
  = [].
Proof.
  apply (new_towers_are_saved (H := example_collaborators)
           (example_spec INTERMIXED_NONADAPTIVE_ENSEMBLE_SEARCH 2)
           DISTILLATION 10 example_hparams {| model_dir := "/tmp/4" |} true
           example_trials
           (TowerList
              [Tower_load (example_spec INTERMIXED_NONADAPTIVE_ENSEMBLE_SEARCH 2)
                 "search_generator_0" "search_generator_0" "/tmp/3" "/tmp/4"
                 true 10 false true])).
  reflexivity.
Defined.

(** A snapshot from trial 1 was configured and asked for. *)
Lemma snapshot_was_configured :
  transfer_learning_type (example_spec NONE 0) = SNAPSHOT_TRANSFER_LEARNING.
Proof.
  apply (snapshot_only_from_positive_parent
           (H := example_collaborators_with 3 (Some 1))
           (example_spec NONE 0) NO_PRIOR 10 example_hparams
           {| model_dir := "/tmp/3" |} true example_trials
           (Some {| trial_id := 1; trial_model_directory := "/tmp/1" |})).
  vm_compute. apply list_elem_of_singleton. reflexivity.
Defined.

(** Trial 0 of the example is served the second, last, suggestion. *)
Lemma trial_zero_served_the_last_suggestion :
  run (first_time_chief_generate (H := example_collaborators_with 0 None)
         (example_spec NONE 0) NO_PRIOR 10 example_hparams
         {| model_dir := "/tmp/0" |} true example_trials)
  = ([SaveArchitecture [2; 1] "/tmp/0" 0;
      SetNumberOfTowers "search_generator" 1],
     inr (TowerList
            [new_tower (example_spec NONE 0) [2; 1] true 10 example_hparams
               {| model_dir := "/tmp/0" |}])).
Proof.
  apply (nonpositive_id_served_from_the_end
           (H := example_collaborators_with 0 None)
           (example_spec NONE 0) NO_PRIOR 10 example_hparams
           {| model_dir := "/tmp/0" |} true example_trials [2; 1]).
  - computed.
  - reflexivity.
Defined.

(** The second name of the suggestion is no block type. *)
Lemma no_such_block_raises :
  run (first_time_chief_generate (H := example_collaborators_with 1 None)
         example_spec_with_unknown_block NO_PRIOR 10 example_hparams
         {| model_dir := "/tmp/1" |} true [])
  = ([], inl (KeyError "NO_SUCH_BLOCK")).
Proof.
  apply (unknown_block_name_raises (H := example_collaborators_with 1 None)
           example_spec_with_unknown_block NO_PRIOR 10 example_hparams
           {| model_dir := "/tmp/1" |} true []
           {| architecture :=
                ["FULLY_CONNECTED"; "NO_SUCH_BLOCK"; "CONVOLUTION_3X3"] |}
           ["FULLY_CONNECTED"] ["CONVOLUTION_3X3"] "NO_SUCH_BLOCK").
  - computed.
  - reflexivity.
  - reflexivity.
  - repeat constructor. exists 1. reflexivity.
  - reflexivity.
Defined.

(** A distillation trial under adaptive ensembling searches over all three
    trials. *)
Lemma adaptive_distillation_searches_all :
  searched_over
    (run (first_time_chief_generate (H := example_collaborators)
            (example_spec ADAPTIVE_ENSEMBLE_SEARCH 2) DISTILLATION 10
            example_hparams {| model_dir := "/tmp/3" |} true
            example_trials)).1
  = [example_trials].
Proof.
  apply (fallthrough_searches_whole_history (H := example_collaborators)
           (example_spec ADAPTIVE_ENSEMBLE_SEARCH 2) DISTILLATION 10
           example_hparams {| model_dir := "/tmp/3" |} true example_trials).
  - computed.
  - right. split; [reflexivity|discriminate].
Defined.

(** In trial 3 with [increase_width_every = 2], trial 1 is out of reach. *)
Lemma adaptive_window_reach_example :
  exists relevant,
    searched_over
      (run (first_time_chief_generate (H := example_collaborators)
              (example_spec ADAPTIVE_ENSEMBLE_SEARCH 2) ENSEMBLE_SEARCH 10
              example_hparams {| model_dir := "/tmp/3" |} true
              example_trials)).1
    = [relevant]
    /\ {| trial_id := 1; trial_model_directory := "/tmp/1" |} ∉ relevant.
Proof.
  destruct (adaptive_window_reach (H := example_collaborators)
              (example_spec ADAPTIVE_ENSEMBLE_SEARCH 2) 10 example_hparams
              {| model_dir := "/tmp/3" |} true example_trials)
    as (relevant & Hsearched & Hreach).
  - left. reflexivity.
  - computed.
  - computed.
  - exists relevant. split; [exact Hsearched|].
    apply Hreach; [left|computed].
Defined.

(** The variables of trial 3 are initialised from trial 1. *)
Lemma snapshot_taken_from_trial_1 :
  initialised_from
    (run (first_time_chief_generate
            (H := example_collaborators_with 3 (Some 1))
            (example_spec NONE 0) NO_PRIOR 10 example_hparams
            {| model_dir := "/tmp/3" |} true example_trials)).1
  = [Some {| trial_id := 1; trial_model_directory := "/tmp/1" |}].
Proof.
  apply (snapshot_taken_from_parent
           (H := example_collaborators_with 3 (Some 1))
           (example_spec NONE 0) NO_PRIOR 10 example_hparams
           {| model_dir := "/tmp/3" |} true example_trials example_trials 1).
  - reflexivity.
  - reflexivity.
  - reflexivity.
  - computed.
  - reflexivity.
Defined.

(** Trial 3 under non-adaptive ensembling. *)
Lemma nonadaptive_example :
  run (first_time_chief_generate (H := example_collaborators)
         (example_spec NONADAPTIVE_ENSEMBLE_SEARCH 0) ENSEMBLE_SEARCH 10
         example_hparams {| model_dir := "/tmp/3" |} true example_trials)
  = ([SetNumberOfTowers "search_generator" 0], inr EmptyPair).
Proof.
  apply (nonadaptive_yields_no_tower (H := example_collaborators)
           (example_spec NONADAPTIVE_ENSEMBLE_SEARCH 0) 10 example_hparams
           {| model_dir := "/tmp/3" |} true example_trials).
  - reflexivity.
  - computed.
Defined.

(** Trial 3 under intermixed ensembling with [try_ensembling_every = 0]. *)
Lemma intermixed_zero_every_example :
  run (first_time_chief_generate (H := example_collaborators)
         (example_spec INTERMIXED_NONADAPTIVE_ENSEMBLE_SEARCH 0)
         ENSEMBLE_SEARCH 10 example_hparams {| model_dir := "/tmp/3" |} true
         example_trials)
  = ([], inl ZeroDivisionError).
Proof.
  apply (intermixed_with_zero_every_raises (H := example_collaborators)
           (example_spec INTERMIXED_NONADAPTIVE_ENSEMBLE_SEARCH 0) 10
           example_hparams {| model_dir := "/tmp/3" |} true example_trials).
  - reflexivity.
  - reflexivity.
  - computed.
Defined.

End GeneratorCoverageRuns.
